(** * MUD point estimation: the exponential-decay notebook and the estimator it drives

    The development has three layers.

    - [Np]: the numpy / scipy primitives the notebook calls, over lists.
      A Python float is modelled as a rational ([Q]).  What depends on
      binary64 rounding or on the size of the machine is a parameter: the
      exponential [np.exp], the grid that [np.arange] builds or refuses, and
      the stream of standard uniform variates drawn by [uniform.rvs].
    - [Notebook]: [exp_decay_one] and the sequential batch loop, both
      transcribed from [notebooks/Nonlinear_Examples.ipynb].
    - [Mud]: the estimator behind [mud.funs.mud_problem], whose code is not
      part of the sources at hand and is modelled from the specification. *)

From Stdlib Require Import List ZArith QArith Qround Qminmax Qabs Lia Lqa Bool Arith.
Import ListNotations.

Set Implicit Arguments.

(** ** Results of fallible calls *)

Inductive result (E A : Type) : Type :=
| Ok (a : A)
| Raise (e : E).

Arguments Ok {E A} a.
Arguments Raise {E A} e.

Definition bind {E A B} (m : result E A) (k : A -> result E B) : result E B :=
  match m with
  | Ok a => k a
  | Raise e => Raise e
  end.

Notation "x <- m ;; k" := (bind m (fun x => k))
  (at level 61, m at next level, right associativity).

Definition is_ok {E A} (m : result E A) : bool :=
  match m with Ok _ => true | Raise _ => false end.

(** The Python exceptions the notebook code can run into. *)
Inductive pyexc : Type :=
| AxisError
| ValueError
| ZeroDivisionError
| IndexError
| MemoryError.

(** ** numpy and scipy primitives *)

Module Np.

(** [l[i]] on a Python list. *)
Definition getitem {A} (l : list A) (i : nat) : result pyexc A :=
  match nth_error l i with
  | Some a => Ok a
  | None => Raise IndexError
  end.

(** [l[0:n]]: a negative stop counts from the end. *)
Definition slice_to {A} (n : Z) (l : list A) : list A :=
  if (0 <=? n)%Z
  then firstn (Z.to_nat n) l
  else firstn (Z.to_nat (Z.of_nat (length l) + n)) l.

(** [1 / x] on Python floats. *)
Definition py_inv (x : Q) : result pyexc Q :=
  if Qeq_bool x 0 then Raise ZeroDivisionError else Ok (1 / x).

(** [np.arange(start, stop, step)] on floats.  numpy computes the number of
    elements, [ceil((stop - start) / step)], and the elements themselves in
    binary64, and it refuses a grid it cannot build: [ValueError] ("Maximum
    allowed size exceeded") for a length out of range, [MemoryError] for one
    that does not fit, and a zero step, which the notebook never passes.
    What it gives for an input is therefore a parameter, [grid].  Fixed here
    is only what rounding cannot change: a grid that is returned is empty
    when [(stop - start) / step] is not positive. *)
Definition arange (grid : Q -> Q -> Q -> result pyexc (list Q))
    (start stop step : Q) : result pyexc (list Q) :=
  g <- grid start stop step ;;
  Ok (if Qle_bool ((stop - start) / step) 0 then [] else g).

(** A two-dimensional array: numpy keeps the shape next to the data, so the
    number of columns is known even when there is no row. *)
Record ndarray2 : Type := mk2d { shape1 : nat; rows : list (list Q) }.

Definition shape0 (m : ndarray2) : nat := length (rows m).

(** [np.outer(a, b)]. *)
Definition outer (a b : list Q) : ndarray2 :=
  mk2d (length b) (map (fun x => map (fun y => x * y) b) a).

(** Elementwise map over a two-dimensional array. *)
Definition map2d (f : Q -> Q) (m : ndarray2) : ndarray2 :=
  mk2d (shape1 m) (map (map f) (rows m)).

(** [m[0]]. *)
Definition row0 (m : ndarray2) : result pyexc (list Q) :=
  getitem (rows m) 0.

(** What the notebook passes as [domain]: the default [[0, 1]] is a flat
    list, scenario 1 passes the nested [[[0, 1]]]. *)
Inductive domain_arg : Type :=
| Dom1 (xs : list Q)
| Dom2 (rs : list (list Q)).

Definition list_min (x : Q) (l : list Q) : Q := fold_left Qmin l x.
Definition list_max (x : Q) (l : list Q) : Q := fold_left Qmax l x.

(** All rows have the length of the first one. *)
Definition rectangular (rs : list (list Q)) : bool :=
  match rs with
  | [] => true
  | r :: rs' => forallb (fun r' => Nat.eqb (length r') (length r)) rs'
  end.

(** [np.min(domain, axis=1)] and [np.max(domain, axis=1)].  A flat list, or
    an empty one, makes a one-dimensional array, which has no axis 1; rows of
    unequal lengths do not make an array; empty rows cannot be reduced. *)
Definition reduce_axis1 (red : Q -> list Q -> Q) (d : domain_arg)
  : result pyexc (list Q) :=
  match d with
  | Dom1 _ => Raise AxisError
  | Dom2 [] => Raise AxisError
  | Dom2 (([] :: _) as rs) => Raise ValueError
  | Dom2 (((_ :: _) :: _) as rs) =>
      if rectangular rs
      then Ok (map (fun r => match r with [] => 0 | x :: t => red x t end) rs)
      else Raise ValueError
  end.

Definition min_axis1 := reduce_axis1 list_min.
Definition max_axis1 := reduce_axis1 list_max.

(** [mx - mn] on arrays of equal length. *)
Definition sub (a b : list Q) : list Q :=
  map (fun p => fst p - snd p) (combine a b).

(** [uniform(loc, scale).rvs(size=n)], drawing the standard uniform variates
    [u 0], [u 1], ...  A negative size is refused.  One-element parameter
    arrays are squeezed to scalars; longer ones must have exactly [n]
    elements and are then used elementwise.  A zero scale returns [loc]
    itself, which is what [loc + scale * u] gives too. *)
Definition uniform_rvs (u : nat -> Q) (loc scale : list Q) (n : Z)
  : result pyexc (list Q) :=
  if (n <? 0)%Z then Raise ValueError
  else
    match loc, scale with
    | [l], [s] => Ok (map (fun i => u i * s + l) (seq 0 (Z.to_nat n)))
    | _, _ =>
        if (Nat.eqb (length loc) (Z.to_nat n) && Nat.eqb (length scale) (Z.to_nat n))%bool
        then Ok (map (fun p => u (fst p) * snd (snd p) + fst (snd p))
                     (combine (seq 0 (Z.to_nat n)) (combine loc scale)))
        else Raise ValueError
    end.

(** [np.split(l, n)]: [n] equal sections.  The remainder test comes first
    (a zero [n] fails there); a negative [n] that passes it is refused
    afterwards. *)
Definition section_of {A} (size : nat) (l : list A) (i : nat) : list A :=
  firstn size (skipn (i * size) l).

Definition split_sizes (len : nat) (n : Z) : result pyexc (nat * nat) :=
  if (n =? 0)%Z then Raise ZeroDivisionError
  else if negb (Z.of_nat len mod n =? 0)%Z then Raise ValueError
  else if (n <? 0)%Z then Raise ValueError
  else Ok (Z.to_nat (Z.of_nat len / n), Z.to_nat n).

Definition split {A} (l : list A) (n : Z) : result pyexc (list (list A)) :=
  sz <- split_sizes (length l) n ;;
  Ok (map (section_of (fst sz) l) (seq 0 (snd sz))).

(** [np.split(m, n, axis=1)]: the columns are cut, every row is kept. *)
Definition split_axis1 (m : ndarray2) (n : Z) : result pyexc (list ndarray2) :=
  sz <- split_sizes (shape1 m) n ;;
  Ok (map (fun i => mk2d (fst sz) (map (fun r => section_of (fst sz) r i) (rows m)))
          (seq 0 (snd sz))).

End Np.

(** ** The notebook: data generator *)

Module Notebook.
Import Np.

Section ExpDecay.

(** [np.exp] on one float. *)
Variable np_exp : Q -> Q.
(** The grid that [np.arange] computes in binary64, or its refusal. *)
Variable np_arange : Q -> Q -> Q -> result pyexc (list Q).
(** The standard uniform variates that [rvs] draws, in order. *)
Variable rng : nat -> Q.

(** [u_t_lambda = lambda t, l: u_0 * np.exp(-np.outer(l, t))] *)
Definition u_t_lambda (u_0 : Q) (t l : list Q) : ndarray2 :=
  map2d (fun x => u_0 * np_exp (- x)) (outer l t).

(** [exp_decay_one]; the result is [(times, lambda_samples, predicted, true)].
    [time], the plotting grid of the first line, is not used afterwards: only
    its two reads of [time_range] are kept.  A scalar [lambda_true] is the
    one-element array that [np.outer] flattens it to. *)
Definition exp_decay_one (u_0 : Q) (time_range : list Q) (domain : domain_arg)
    (num_samples : Z) (lambda_true : Q) (N : Z) (t_start sampling_freq : Q)
  : result pyexc (list Q * list Q * ndarray2 * list Q) :=
  _ <- getitem time_range 0 ;;
  t_end <- getitem time_range 1 ;;
  step <- py_inv sampling_freq ;;
  grid <- arange np_arange t_start t_end step ;;
  let times := slice_to N grid in
  mn <- min_axis1 domain ;;
  mx <- max_axis1 domain ;;
  lambda_samples <- uniform_rvs rng mn (sub mx mn) num_samples ;;
  true <- row0 (u_t_lambda u_0 times [lambda_true]) ;;
  let predicted := u_t_lambda u_0 times lambda_samples in
  Ok (times, lambda_samples, predicted, true).

End ExpDecay.

(** Stand-ins used to run the generator on concrete inputs: a truncated
    exponential series and a fixed cycle of variates in [[0, 1)]. *)
Definition exp_series (x : Q) : Q := 1 + x + x * x / 2.
Definition cycle_rng (i : nat) : Q := inject_Z (Z.of_nat (i mod 4)) / 4.

(** Stand-in for the grid of [np.arange] in concrete runs: the exact grid
    [start + k * step] for [k] below [ceil((stop - start) / step)].  It is
    numpy's grid where binary64 is exact on the inputs, as for the halves and
    integers of the runs below; it is not numpy's grid in general. *)
Definition exact_grid (start stop step : Q) : result pyexc (list Q) :=
  Ok (map (fun k => start + inject_Z (Z.of_nat k) * step)
          (seq 0 (Z.to_nat (Qceiling ((stop - start) / step))))).

(** A grid that [np.arange] refuses with [ValueError], whatever is asked. *)
Definition refused_grid (start stop step : Q) : result pyexc (list Q) :=
  Raise ValueError.

(** The sampling instant number [k] of a device running at [sampling_freq]
    from [t_start]. *)
Definition instant (t_start sampling_freq : Q) (k : nat) : Q :=
  t_start + inject_Z (Z.of_nat k) * (1 / sampling_freq).

(** [c] is the number of sampling instants lying in [[t_start, t_end)]. *)
Definition instants_in_window (t_start t_end sampling_freq : Q) (c : nat) : Prop :=
  forall k : nat,
    (k < c)%nat <->
    t_start <= instant t_start sampling_freq k /\ instant t_start sampling_freq k < t_end.

(** The model trajectory [u_0 * exp(-l * t)] at the measurement times. *)
Definition trajectory (np_exp : Q -> Q) (u_0 l : Q) (times : list Q) : list Q :=
  map (fun t => u_0 * np_exp (- (l * t))) times.

(** The constants a scenario cell assigns, the noise level among them. *)
Record scenario : Type := {
  u_0 : Q;
  time_range : list Q;
  domain : domain_arg;
  lambda_true : Q;
  num_samples : Z;
  N : Z;
  t_start : Q;
  sampling_freq : Q;
  sd : Q
}.

(** Scenario 1.  [sd = np.sqrt(1.507e-3)] is a float near 0.0388; it is left
    open here. *)
Definition scenario_1 (sd : Q) : scenario :=
  {| u_0 := 3 # 4; time_range := [0; 10]; domain := Dom2 [[0; 1]];
     lambda_true := 1 # 2; num_samples := 100; N := 30; t_start := 0;
     sampling_freq := 100; sd := sd |}.

(** The cell that generates the data of a scenario:
    [ts, lam, qoi, qoi_true = exp_decay_one(u_0=u_0, ...)]. *)
Definition generate (np_exp : Q -> Q)
    (np_arange : Q -> Q -> Q -> result pyexc (list Q)) (rng : nat -> Q)
    (c : scenario)
  : result pyexc (list Q * list Q * ndarray2 * list Q) :=
  exp_decay_one np_exp np_arange rng (u_0 c) (time_range c) (domain c) (num_samples c)
                (lambda_true c) (N c) (t_start c) (sampling_freq c).

Definition with_sd (c : scenario) (sd' : Q) : scenario :=
  {| u_0 := u_0 c; time_range := time_range c; domain := domain c;
     lambda_true := lambda_true c; num_samples := num_samples c; N := N c;
     t_start := t_start c; sampling_freq := sampling_freq c; sd := sd' |}.



(** The column count of the prediction matrix read as the smaller of the
    requested [N] and the number of instants in the window, for any call. *)
Definition columns_are_min_of_N_and_instants (np_exp : Q -> Q)
    (np_arange : Q -> Q -> Q -> result pyexc (list Q)) (rng : nat -> Q)
    (c : scenario) : Prop :=
  forall times lam predicted true t_end k,
    generate np_exp np_arange rng c = Ok (times, lam, predicted, true) ->
    nth_error (time_range c) 1 = Some t_end ->
    instants_in_window (t_start c) t_end (sampling_freq c) k ->
    Z.of_nat (shape1 predicted) = Z.min (N c) (Z.of_nat k).

(** ** The notebook: sequential batches *)

Section Sequential.

(** [mdf.mud_problem], [estimate()] and the attribute [_r] belong to the
    [mud] package.  A problem object is mutated by [estimate()]: the call
    returns the estimate together with the object as it is afterwards.
    [None] is Python's [None]. *)
Variables Domain Lam Problem Est W E : Type.
Variable mud_problem :
  Domain -> Lam -> ndarray2 -> Q -> list Q -> Z -> option W -> result E Problem.
Variable estimate : Problem -> result E (Est * Problem).
Variable _r : Problem -> option W.

(** An exception of the cell is one of numpy's or one of the package's. *)
Definition np_call {A} (m : result pyexc A) : result (pyexc + E) A :=
  match m with Ok a => Ok a | Raise e => Raise (inl e) end.
Definition mud_call {A} (m : result E A) : result (pyexc + E) A :=
  match m with Ok a => Ok a | Raise e => Raise (inr e) end.

(** The variables the loop assigns: [weights], [mud_solves], and the
    estimates it prints. *)
Definition loop_state : Type := (option W * list Problem * list Est)%type.

(** One pass through the body of [for i in range(num_splits)]. *)
Definition loop_body (domain : Domain) (lam : Lam) (qoi_it : list ndarray2)
    (sd : Q) (qoi_true_it : list (list Q)) (num_obs : Z)
    (st : loop_state) (i : nat) : result (pyexc + E) loop_state :=
  let '(weights, mud_solves, printed) := st in
  q <- np_call (getitem qoi_it i) ;;
  t <- np_call (getitem qoi_true_it i) ;;
  mud_it <- mud_call (mud_problem domain lam q sd t num_obs weights) ;;
  r <- mud_call (estimate mud_it) ;;
  let '(res, mud_it) := r in
  Ok (_r mud_it, mud_solves ++ [mud_it], printed ++ [res]).

Fixpoint for_range (body : loop_state -> nat -> result (pyexc + E) loop_state)
    (st : loop_state) (idx : list nat) : result (pyexc + E) loop_state :=
  match idx with
  | [] => Ok st
  | i :: rest => st' <- body st i ;; for_range body st' rest
  end.

(** The cell: split the data of scenario 1 into [num_splits] batches, start
    from [weights = None] and [mud_solves = []], and loop.
    [int(N / num_splits)] truncates towards zero. *)
Definition sequential_cell (num_splits : Z) (ts : list Q) (domain : Domain)
    (lam : Lam) (qoi : ndarray2) (sd : Q) (qoi_true : list Q) (N : Z)
  : result (pyexc + E) loop_state :=
  _ <- np_call (split ts num_splits) ;;
  qoi_it <- np_call (split_axis1 qoi num_splits) ;;
  qoi_true_it <- np_call (split qoi_true num_splits) ;;
  for_range (loop_body domain lam qoi_it sd qoi_true_it (Z.quot N num_splits))
            (None, [], []) (seq 0 (Z.to_nat num_splits)).

(** The weights handed to the constructor of batch [k], read off the list of
    solved problems: nothing for the first batch, the stored [_r] of the
    batch before for the others. *)
Definition weights_fed (mud_solves : list Problem) (k : nat) : option W :=
  match k with
  | O => None
  | S j => match nth_error mud_solves j with Some p => _r p | None => None end
  end.

(** Pass [k] of the loop, seen from the final list of solved problems: the
    constructor got batch [i] and the weights [weights_fed mud_solves k], and
    the problem it made, once estimated, is entry [k] of the list. *)
Definition pass_ok (domain : Domain) (lam : Lam) (qoi_it : list ndarray2)
    (sd : Q) (qoi_true_it : list (list Q)) (num_obs : Z)
    (mud_solves : list Problem) (printed : list Est) (k i : nat) : Prop :=
  exists q t mud_it res p,
    nth_error qoi_it i = Some q /\
    nth_error qoi_true_it i = Some t /\
    mud_problem domain lam q sd t num_obs (weights_fed mud_solves k) = Ok mud_it /\
    estimate mud_it = Ok (res, p) /\
    nth_error mud_solves k = Some p /\
    nth_error printed k = Some res.

End Sequential.

End Notebook.

(** ** The estimator *)

Module Mud.
Import Np.

(** Modelled from the spec: the error kinds of the estimator (the package
    that raises them is missing from the sources). *)
Inductive mud_error : Type :=
| InvalidDomainError
| DimensionMismatchError
| InsufficientSamplesError
| DegenerateDensityError
| EmptySampleSetError
| ShapeMismatchError.

(** Modelled from the spec: the observed density object of the missing
    package, a Gaussian given by its mean and its variance. *)
Record gaussian : Type := { g_mean : Q; g_var : Q }.

(** Modelled from the spec: the MUD problem object of [mud.funs], which is
    missing from the sources.  The inputs are those of the constructor; the
    four derived quantities are optional fields, empty until solved.  The
    densities are kept as their values at the [N] samples. *)
Record problem : Type := mk_problem {
  domain : list (Q * Q);
  lam : list (list Q);
  qoi : ndarray2;
  sd : Q;
  qoi_true : list Q;
  num_obs : Z;
  weights : list Q;
  _in : option (list Q);
  _pr : option (list Q);
  _ob : option gaussian;
  _r : option (list Q)
}.

(** Modelled from the spec: the constructor of the MUD problem (missing from
    the sources).  An empty sample set is refused first, then a prediction
    matrix whose rows do not match the samples or whose columns do not match
    the observed data, then weights of the wrong length.  Absent weights are
    uniform, one per sample.  Nothing is cut or repeated to make shapes fit. *)
Definition mud_problem (domain : list (Q * Q)) (lam : list (list Q))
    (qoi : ndarray2) (sd : Q) (qoi_true : list Q) (num_obs : Z)
    (weights : option (list Q)) : result mud_error problem :=
  let n := length lam in
  if Nat.eqb n 0 then Raise EmptySampleSetError
  else if negb (Nat.eqb (shape0 qoi) n) then Raise ShapeMismatchError
  else if negb (Nat.eqb (shape1 qoi) (length qoi_true)) then Raise ShapeMismatchError
  else
    match weights with
    | None =>
        Ok (mk_problem domain lam qoi sd qoi_true num_obs (repeat 1 n)
                       None None None None)
    | Some w =>
        if Nat.eqb (length w) n
        then Ok (mk_problem domain lam qoi sd qoi_true num_obs w None None None None)
        else Raise DimensionMismatchError
    end.

(** Modelled from the spec: the sum used by the weighted statistics
    utilities (missing from the sources). *)
Definition sum (l : list Q) : Q := fold_right Qplus 0 l.

(** Modelled from the spec: the mean of the weighted statistics utilities
    (missing from the sources), with unit weights. *)
Definition mean (l : list Q) : Q := sum l / inject_Z (Z.of_nat (length l)).

(** Modelled from the spec: the index of the largest score, the first one
    when several are largest (the arg-max of [estimate()], missing from the
    sources).  One scan that replaces the best only by a strictly larger
    score. *)
Fixpoint argmax_from (best_i : nat) (best : Q) (i : nat) (l : list Q) : nat :=
  match l with
  | [] => best_i
  | x :: t =>
      if Qle_bool x best
      then argmax_from best_i best (S i) t
      else argmax_from i x (S i) t
  end.

(** Modelled from the spec: the arg-max of [estimate()] (missing from the
    sources) on a whole score vector; there is none on an empty one. *)
Definition argmax (l : list Q) : option nat :=
  match l with
  | [] => None
  | x :: t => Some (argmax_from 0 x 1 t)
  end.

(** Modelled from the spec: the effective sample size of the weighted
    statistics utilities (missing from the sources). *)
Definition ess (w : list Q) : Q :=
  sum w * sum w / sum (map (fun x => x * x) w).

(** Quantities used to bound the effective sample size: the number of
    weights, the sum of their squares, the sum of the squared distances of
    the entries of [l] to [a], and [N * sum w^2 - (sum w)^2], which is the
    sum of the squared differences over all pairs. *)
Definition count (l : list Q) : Q := inject_Z (Z.of_nat (length l)).
Definition sumsq (l : list Q) : Q := sum (map (fun x => x * x) l).
Definition sqdist (a : Q) (l : list Q) : Q :=
  sum (map (fun x => (a - x) * (a - x)) l).
Definition spread (l : list Q) : Q := count l * sumsq l - sum l * sum l.

(** [k] is the position of the first largest entry of [l]. *)
Definition first_max (l : list Q) (k : nat) : Prop :=
  exists m,
    nth_error l k = Some m /\
    (forall j y, nth_error l j = Some y -> y <= m) /\
    (forall j y, (j < k)%nat -> nth_error l j = Some y -> y < m).

Fixpoint zip_with3 {A B C D} (f : A -> B -> C -> D)
    (a : list A) (b : list B) (c : list C) : list D :=
  match a, b, c with
  | x :: a', y :: b', z :: c' => f x y z :: zip_with3 f a' b' c'
  | _, _, _ => []
  end.

Fixpoint zip_with {A B C} (f : A -> B -> C) (a : list A) (b : list B) : list C :=
  match a, b with
  | x :: a', y :: b' => f x y :: zip_with f a' b'
  | _, _ => []
  end.

Section Estimator.

(** Modelled from the spec: the external interfaces of the missing package.
    The density estimation backend: [fit(samples, weights)] gives a callable
    density, or fails. *)
Variable fit : list (list Q) -> list Q -> result mud_error (list Q -> Q).
(** The value of a Gaussian density at a point. *)
Variable norm_pdf : gaussian -> Q -> Q.
(** The empirical mean discrepancy of the predictions against the observed
    data. *)
Variable mean_discrepancy : ndarray2 -> list Q -> Q.
(** Predicted densities up to [eps] count as zero. *)
Variable eps : Q.

(** Modelled from the spec: the summarization rule of the missing package.
    The scalar quantity of interest of each sample is the mean of its [M]
    predicted values. *)
Definition q_of (p : problem) : list Q := map mean (rows (qoi p)).

(** Modelled from the spec: the initial density of a MUD problem (missing
    from the sources): the density fitted on the samples with the weights,
    at the samples. *)
Definition compute_in (p : problem) : result mud_error (list Q) :=
  f <- fit (lam p) (weights p) ;;
  Ok (map f (lam p)).

(** Modelled from the spec: the predicted density of a MUD problem (missing
    from the sources): the density fitted on the quantities of interest with
    the same weights, at these quantities. *)
Definition compute_pr (p : problem) : result mud_error (list Q) :=
  f <- fit (map (fun q => [q]) (q_of p)) (weights p) ;;
  Ok (map (fun q => f [q]) (q_of p)).

(** Modelled from the spec: the observed density of a MUD problem (missing
    from the sources): the Gaussian with mean the empirical mean discrepancy
    plus the mean of the true values, and variance [sd^2 / num_obs]. *)
Definition compute_ob (p : problem) : gaussian :=
  {| g_mean := mean_discrepancy (qoi p) (qoi_true p) + mean (qoi_true p);
     g_var := sd p * sd p / inject_Z (num_obs p) |}.

(** Modelled from the spec: one entry of the ratio of the missing package,
    under the tolerant policy: a predicted density that is zero or nearly so
    contributes nothing. *)
Definition ratio (w ob pr : Q) : Q :=
  if Qle_bool pr eps then 0 else w * ob / pr.

(** Modelled from the spec: the ratio vector of a MUD problem (missing from
    the sources): [r_i = w_i * pi_obs(q_i) / pi_pred(q_i)]. *)
Definition compute_r (p : problem) (g : gaussian) (pr : list Q) : list Q :=
  zip_with3 ratio (weights p) (map (norm_pdf g) (q_of p)) pr.

(** Modelled from the spec: a derived quantity is read from its field when
    the field is filled, and computed otherwise (the caching of the missing
    package). *)
Definition cached {A} (c : option A) (compute : result mud_error A)
  : result mud_error A :=
  match c with
  | Some v => Ok v
  | None => compute
  end.

(** Modelled from the spec: the internal solve step (missing from the
    sources).  Each derived quantity is taken from its field when that is
    filled and computed otherwise, in the order initial, predicted, observed,
    ratio; all four are then stored.  A failing fit leaves the object as it
    was. *)
Definition solve (p : problem) : result mud_error problem :=
  vin <- cached (_in p) (compute_in p) ;;
  vpr <- cached (_pr p) (compute_pr p) ;;
  g <- cached (_ob p) (Ok (compute_ob p)) ;;
  r <- cached (_r p) (Ok (compute_r p g vpr)) ;;
  Ok (mk_problem (domain p) (lam p) (qoi p) (sd p) (qoi_true p) (num_obs p)
                 (weights p) (Some vin) (Some vpr) (Some g) (Some r)).

(** Modelled from the spec: the updated density of the missing package at
    the samples, initial density times ratio. *)
Definition scores (p : problem) : list Q :=
  match _in p, _r p with
  | Some vin, Some r => zip_with Qmult vin r
  | _, _ => []
  end.

(** Modelled from the spec: [estimate()] (missing from the sources).  Solve,
    then return the sample at the first arg-max of the scores, together with
    the object as solving left it. *)
Definition estimate (p : problem) : result mud_error (list Q * problem) :=
  p' <- solve p ;;
  match argmax (scores p') with
  | None => Raise EmptySampleSetError
  | Some i =>
      match nth_error (lam p') i with
      | Some x => Ok (x, p')
      | None => Raise ShapeMismatchError
      end
  end.

End Estimator.

(** Stand-ins used to run the estimator on concrete inputs: a triangular
    kernel estimate on the first coordinate that needs two samples, and a
    rational bump in place of the Gaussian bell. *)
Definition hat (x : Q) : Q := Qmax 0 (1 - Qabs x).

Definition hat_fit (samples : list (list Q)) (w : list Q)
  : result mud_error (list Q -> Q) :=
  if (length samples <? 2)%nat then Raise InsufficientSamplesError
  else if negb (Nat.eqb (length w) (length samples)) then Raise DimensionMismatchError
  else Ok (fun x =>
         sum (zip_with (fun wi s => wi * hat (hd 0 x - hd 0 s)) w samples) / sum w).

Definition bump_pdf (g : gaussian) (x : Q) : Q :=
  1 / (1 + (x - g_mean g) * (x - g_mean g) / g_var g).

Definition no_discrepancy (_ : ndarray2) (_ : list Q) : Q := 0.

End Mud.

(** ** The notebook on the estimator *)

(** The sequential cell with the estimator in the place of the package
    calls. *)
Definition sequential_estimator
    (fit : list (list Q) -> list Q -> result Mud.mud_error (list Q -> Q))
    (norm_pdf : Mud.gaussian -> Q -> Q)
    (mean_discrepancy : Np.ndarray2 -> list Q -> Q) (eps : Q) :=
  Notebook.sequential_cell Mud.mud_problem
    (Mud.estimate fit norm_pdf mean_discrepancy eps) Mud._r.

(** ** Conditions on the arguments of the notebook code *)

Module Shapes.
Import Np.

(** Every row of a two-dimensional array has as many entries as its shape
    says. *)
Definition well_shaped (m : ndarray2) : Prop :=
  Forall (fun r => length r = shape1 m) (rows m).

(** A nested list that numpy can reduce along axis 1: at least one row, the
    rows non-empty and of one length. *)
Definition reducible (d : domain_arg) : Prop :=
  match d with
  | Dom2 (((_ :: _) :: _) as rs) => rectangular rs = true
  | _ => False
  end.

(** The number of rows of the domain argument. *)
Definition dimension (d : domain_arg) : nat :=
  match d with
  | Dom1 _ => 0
  | Dom2 rs => length rs
  end.

(** The rows of the domain argument. *)
Definition domain_rows (d : domain_arg) : list (list Q) :=
  match d with
  | Dom1 _ => []
  | Dom2 rs => rs
  end.

End Shapes.

(** * Properties *)

Unset Implicit Arguments.

(** ** numpy primitives *)

Module NpFacts.
Import Np.

Lemma bind_ok {E A B} (m : result E A) (k : A -> result E B) (b : B) :
  bind m k = Ok b -> exists a, m = Ok a /\ k a = Ok b.
Proof.
  destruct m as [a|e]; simpl; intros H; [eauto | discriminate].
Qed.

Lemma getitem_ok {A} (l : list A) (i : nat) (a : A) :
  getitem l i = Ok a <-> nth_error l i = Some a.
Proof.
  unfold getitem. destruct (nth_error l i); split; intros H;
    try discriminate; congruence.
Qed.

Lemma slice_to_length {A} (n : Z) (l : list A) :
  (0 <= n)%Z -> length (slice_to n l) = Nat.min (Z.to_nat n) (length l).
Proof.
  intros Hn. unfold slice_to.
  destruct (0 <=? n)%Z eqn:E; [apply length_firstn | apply Z.leb_gt in E; lia].
Qed.

Lemma slice_to_nth {A} (n : Z) (l : list A) (k : nat) :
  (k < length (slice_to n l))%nat -> nth_error (slice_to n l) k = nth_error l k.
Proof.
  unfold slice_to. destruct (0 <=? n)%Z; intros Hk;
    rewrite length_firstn in Hk; rewrite nth_error_firstn;
    match goal with |- context [(?a <? ?b)%nat] =>
      replace (a <? b)%nat with true by (symmetry; apply Nat.ltb_lt; lia)
    end; reflexivity.
Qed.

Lemma py_inv_ok (x s : Q) :
  py_inv x = Ok s -> s = 1 / x /\ ~ x == 0.
Proof.
  unfold py_inv. destruct (Qeq_bool x 0) eqn:E; intros H; [discriminate|].
  split; [congruence|]. intros Hx. apply Qeq_bool_iff in Hx. congruence.
Qed.

(** What [arange] returns is the grid of the backend, or nothing at all when
    [(stop - start) / step] is not positive. *)
Lemma arange_ok (grid : Q -> Q -> Q -> result pyexc (list Q))
    (start stop step : Q) (g : list Q) :
  arange grid start stop step = Ok g ->
  exists g0,
    grid start stop step = Ok g0 /\
    g = (if Qle_bool ((stop - start) / step) 0 then [] else g0).
Proof.
  unfold arange.
  intros H. apply bind_ok in H as (g0 & Hg0 & H). injection H as <-. eauto.
Qed.

Lemma arange_not_positive (grid : Q -> Q -> Q -> result pyexc (list Q))
    (start stop step : Q) (g : list Q) :
  arange grid start stop step = Ok g ->
  (stop - start) / step <= 0 ->
  g = [].
Proof.
  intros H Hle. apply arange_ok in H as (g0 & _ & ->).
  apply Qle_bool_iff in Hle. now rewrite Hle.
Qed.

Lemma uniform_rvs_length (u : nat -> Q) (loc scale : list Q) (n : Z) (l : list Q) :
  uniform_rvs u loc scale n = Ok l -> Z.of_nat (length l) = n.
Proof.
  unfold uniform_rvs. destruct (n <? 0)%Z eqn:En; [discriminate|].
  apply Z.ltb_ge in En.
  assert (Hgen :
    (if (Nat.eqb (length loc) (Z.to_nat n) && Nat.eqb (length scale) (Z.to_nat n))%bool
     then Ok (map (fun p => u (fst p) * snd (snd p) + fst (snd p))
                  (combine (seq 0 (Z.to_nat n)) (combine loc scale)))
     else Raise ValueError) = Ok l -> Z.of_nat (length l) = n).
  { destruct (Nat.eqb (length loc) (Z.to_nat n)) eqn:E1; [|discriminate].
    destruct (Nat.eqb (length scale) (Z.to_nat n)) eqn:E2; [|discriminate].
    simpl. intros H. injection H as <-.
    apply Nat.eqb_eq in E1, E2.
    rewrite length_map, !length_combine, length_seq. lia. }
  destruct loc as [|l0 [|l1 loc]]; try exact Hgen.
  destruct scale as [|s0 [|s1 scale]]; try exact Hgen.
  intros H. injection H as <-. rewrite length_map, length_seq. lia.
Qed.

(** Whether [rvs] succeeds, and how many variates it returns, does not depend
    on the variates drawn. *)
Lemma uniform_rvs_any_rng (u u' : nat -> Q) (loc scale : list Q) (n : Z) (l : list Q) :
  uniform_rvs u loc scale n = Ok l -> exists l', uniform_rvs u' loc scale n = Ok l'.
Proof.
  unfold uniform_rvs. destruct (n <? 0)%Z; [discriminate|].
  destruct loc as [|l0 [|l1 loc]]; destruct scale as [|s0 [|s1 scale]];
    try (destruct (_ && _)%bool; [eauto | discriminate]); eauto.
Qed.

(** Python slices and [np.split] on small inputs. *)
Example slice_to_examples :
  slice_to 2 [1; 2; 3] = [1; 2] /\
  slice_to 5 [1; 2; 3] = [1; 2; 3] /\
  slice_to (-1) [1; 2; 3] = [1; 2].
Proof. repeat split. Qed.

Example split_examples :
  split [1; 2; 3; 4; 5; 6] 3 = Ok [[1; 2]; [3; 4]; [5; 6]] /\
  split [1; 2; 3] 2 = Raise ValueError /\
  split [1; 2; 3] 0 = Raise ZeroDivisionError.
Proof. repeat split. Qed.

End NpFacts.

(** ** The data generator *)

Module NotebookFacts.
Import Np NpFacts Notebook.

(** Comparisons of closed rationals. *)
Ltac qcmp := vm_compute; first [reflexivity | discriminate].

Section Generator.

Variable np_exp : Q -> Q.

Lemma u_t_lambda_rows (u_0 : Q) (t l : list Q) :
  rows (u_t_lambda np_exp u_0 t l) = map (fun x => trajectory np_exp u_0 x t) l.
Proof.
  unfold u_t_lambda, map2d, outer, trajectory. simpl.
  rewrite map_map. apply map_ext. intros x. now rewrite map_map.
Qed.

Lemma u_t_lambda_shape1 (u_0 : Q) (t l : list Q) :
  shape1 (u_t_lambda np_exp u_0 t l) = length t.
Proof. reflexivity. Qed.

(** What a returning call went through, line by line. *)
Lemma exp_decay_one_ok (np_arange : Q -> Q -> Q -> result pyexc (list Q))
    (rng : nat -> Q) (u_0 : Q) (time_range : list Q)
    (domain : domain_arg) (num_samples : Z) (lambda_true : Q) (N : Z)
    (t_start sampling_freq : Q) (times lam : list Q) (predicted : ndarray2)
    (true : list Q) :
  exp_decay_one np_exp np_arange rng u_0 time_range domain num_samples lambda_true N
                t_start sampling_freq = Ok (times, lam, predicted, true) ->
  exists t_end grid mn mx,
    nth_error time_range 1 = Some t_end /\
    ~ sampling_freq == 0 /\
    arange np_arange t_start t_end (1 / sampling_freq) = Ok grid /\
    times = slice_to N grid /\
    min_axis1 domain = Ok mn /\ max_axis1 domain = Ok mx /\
    uniform_rvs rng mn (sub mx mn) num_samples = Ok lam /\
    true = trajectory np_exp u_0 lambda_true times /\
    predicted = u_t_lambda np_exp u_0 times lam.
Proof.
  unfold exp_decay_one. intros H.
  apply bind_ok in H as (t0 & _ & H).
  apply bind_ok in H as (t_end & Hend & H). apply getitem_ok in Hend.
  apply bind_ok in H as (step & Hstep & H). apply py_inv_ok in Hstep as [-> Hf].
  apply bind_ok in H as (grid & Hgrid & H).
  apply bind_ok in H as (mn & Hmn & H).
  apply bind_ok in H as (mx & Hmx & H).
  apply bind_ok in H as (ls & Hls & H).
  apply bind_ok in H as (tr & Htr & H).
  injection H as <- <- <- <-.
  exists t_end, grid, mn, mx. repeat split; try assumption.
  unfold row0 in Htr. rewrite u_t_lambda_rows in Htr. simpl in Htr.
  unfold getitem in Htr. simpl in Htr. congruence.
Qed.

End Generator.

(** Scenario 1, run on the exact grid, gives the shapes the notebook prints:
    [((30,), (100,), (100, 30), (30,))]. *)
Example scenario_1_shapes :
  exists ts lam qoi qoi_true,
    generate exp_series exact_grid cycle_rng (scenario_1 (388 # 10000))
      = Ok (ts, lam, qoi, qoi_true) /\
    (length ts, length lam, (shape0 qoi, shape1 qoi), length qoi_true)
      = (30, 100, (100, 30), 30)%nat.
Proof.
  eexists _, _, _, _. split; [vm_compute; reflexivity | reflexivity].
Qed.

(** The default [domain=[0, 1]] of [exp_decay_one] is a flat list: reducing
    it along axis 1 fails, so a call that leaves the domain out never
    returns. *)
Lemma exp_decay_one_flat_domain_fails (np_exp : Q -> Q)
    (np_arange : Q -> Q -> Q -> result pyexc (list Q)) (rng : nat -> Q)
    (u_0 : Q) (time_range xs : list Q) (num_samples : Z) (lambda_true : Q)
    (N : Z) (t_start sampling_freq : Q) :
  is_ok (exp_decay_one np_exp np_arange rng u_0 time_range (Dom1 xs) num_samples
                       lambda_true N t_start sampling_freq) = false.
Proof.
  unfold exp_decay_one.
  destruct (getitem time_range 0) as [t0|]; [|reflexivity]. cbn [bind].
  destruct (getitem time_range 1) as [t_end|]; [|reflexivity]. cbn [bind].
  destruct (py_inv sampling_freq) as [step|]; [|reflexivity]. cbn [bind].
  destruct (arange np_arange t_start t_end step); reflexivity.
Qed.

(** C9 (as amended).  When [exp_decay_one] is called with a requested count
    [N >= 0] and returns, the prediction matrix has [num_samples] rows, row
    [i] is the trajectory [u_0 * exp(-lambda_i * t)] at the returned times,
    its column count is the length of the returned times and of the returned
    true vector, the times are the first [N] elements of the grid that
    [np.arange(t_start, time_range[1], 1 / sampling_freq)] returned, and
    their number is the smaller of [N] and the length of that grid. *)
Theorem exp_decay_one_shapes (np_exp : Q -> Q)
    (np_arange : Q -> Q -> Q -> result pyexc (list Q)) (rng : nat -> Q)
    (u_0 : Q) (time_range : list Q) (domain : domain_arg) (num_samples : Z)
    (lambda_true : Q) (N : Z) (t_start sampling_freq : Q)
    (times lam : list Q) (predicted : ndarray2) (true : list Q) :
  (0 <= N)%Z ->
  exp_decay_one np_exp np_arange rng u_0 time_range domain num_samples lambda_true N
                t_start sampling_freq = Ok (times, lam, predicted, true) ->
  Z.of_nat (shape0 predicted) = num_samples /\
  Z.of_nat (length lam) = num_samples /\
  rows predicted = map (fun l => trajectory np_exp u_0 l times) lam /\
  shape1 predicted = length times /\
  length true = length times /\
  exists t_end grid,
    nth_error time_range 1 = Some t_end /\
    arange np_arange t_start t_end (1 / sampling_freq) = Ok grid /\
    times = firstn (Z.to_nat N) grid /\
    length times = Nat.min (Z.to_nat N) (length grid).
Proof.
  intros HN H.
  apply exp_decay_one_ok in H
    as (t_end & grid & mn & mx & Hend & _ & Hgrid & -> & _ & _ & Hlam & -> & ->).
  apply uniform_rvs_length in Hlam.
  split; [unfold shape0; rewrite u_t_lambda_rows, length_map; exact Hlam|].
  split; [exact Hlam|].
  split; [apply u_t_lambda_rows|].
  split; [apply u_t_lambda_shape1|].
  split; [unfold trajectory; now rewrite length_map|].
  exists t_end, grid.
  split; [exact Hend|]. split; [exact Hgrid|].
  split.
  - unfold slice_to. apply Z.leb_le in HN. now rewrite HN.
  - now apply slice_to_length.
Qed.

(** A run of the theorem above: two samples, five measurements requested,
    a grid of two times. *)
Lemma exp_decay_one_shapes_witness :
  exists times lam predicted true,
    ((0 <= 5)%Z /\
     exp_decay_one exp_series exact_grid cycle_rng (3 # 4) [0; 1] (Dom2 [[0; 1]]) 2 (1 # 2)
                   5 0 2 = Ok (times, lam, predicted, true)) /\
    Z.of_nat (shape0 predicted) = 2%Z /\
    shape1 predicted = length times /\
    length true = length times /\
    length times = 2%nat.
Proof.
  eexists _, _, _, _.
  assert (Hrun :
    exp_decay_one exp_series exact_grid cycle_rng (3 # 4) [0; 1] (Dom2 [[0; 1]]) 2 (1 # 2)
                  5 0 2 = Ok _) by (vm_compute; reflexivity).
  split; [split; [lia | exact Hrun] |].
  destruct (exp_decay_one_shapes exp_series exact_grid cycle_rng (3 # 4) [0; 1]
              (Dom2 [[0; 1]]) 2 (1 # 2) 5 0 2 _ _ _ _
              ltac:(lia) Hrun)
    as (H0 & _ & _ & H1 & H2 & _).
  split; [exact H0 | split; [exact H1 | split; [exact H2 | reflexivity]]].
Defined.

(** The number of sampling instants of a 49 Hz device in [[0, 1)]. *)
Lemma instants_at_49_Hz : instants_in_window 0 1 49 49.
Proof.
  intros k. unfold instant.
  assert (Hs : 1 / 49 == 1 # 49) by reflexivity.
  rewrite Hs. split.
  - intros Hk.
    assert (H0 : 0 <= inject_Z (Z.of_nat k))
      by (change 0 with (inject_Z 0); rewrite <- Zle_Qle; lia).
    assert (H1 : inject_Z (Z.of_nat k) <= 48)
      by (change 48 with (inject_Z 48); rewrite <- Zle_Qle; lia).
    split; lra.
  - intros [_ Hk].
    destruct (Nat.lt_ge_cases k 49) as [Hlt|Hge]; [exact Hlt | exfalso].
    assert (H1 : 49 <= inject_Z (Z.of_nat k))
      by (change 49 with (inject_Z 49); rewrite <- Zle_Qle; lia).
    lra.
Qed.

(** C9 (as stated) fails for a negative [N], for a negative frequency, and
    wherever [np.arange] returns more elements than there are instants.
    With [N = -1] the slice drops the last of the two available instants and
    one column is returned, which is not the minimum of [-1] and [2].  With
    [sampling_freq = -2], [t_start = 1] and [time_range[1] = 0] the grid runs
    downwards, [1, 0.5]: two columns are returned although no instant lies in
    the empty window [[1, 0)].  At 49 Hz on [[0, 1)] there are 49 instants;
    a grid of 50 elements, which is what binary64 gives there, makes 50
    columns for [N = 100]. *)
Lemma negative_N_drops_from_the_end :
  ~ columns_are_min_of_N_and_instants exp_series exact_grid cycle_rng
      {| u_0 := 3 # 4; time_range := [0; 1]; domain := Dom2 [[0; 1]];
         lambda_true := 1 # 2; num_samples := 2; N := (-1); t_start := 0;
         sampling_freq := 2; sd := 1 # 10 |} /\
  ~ columns_are_min_of_N_and_instants exp_series exact_grid cycle_rng
      {| u_0 := 3 # 4; time_range := [0; 0]; domain := Dom2 [[0; 1]];
         lambda_true := 1 # 2; num_samples := 2; N := 5; t_start := 1;
         sampling_freq := (-2); sd := 1 # 10 |} /\
  (forall g : list Q, length g = 50%nat ->
   ~ columns_are_min_of_N_and_instants exp_series (fun _ _ _ => Ok g) cycle_rng
       {| u_0 := 3 # 4; time_range := [0; 1]; domain := Dom2 [[0; 1]];
          lambda_true := 1 # 2; num_samples := 2; N := 100; t_start := 0;
          sampling_freq := 49; sd := 1 # 10 |}).
Proof.
  split; [|split]; [intros Hclaim | intros Hclaim | intros g Hg Hclaim].
  - assert (Hrun : exists times lam predicted true,
      generate exp_series exact_grid cycle_rng
        {| u_0 := 3 # 4; time_range := [0; 1]; domain := Dom2 [[0; 1]];
           lambda_true := 1 # 2; num_samples := 2; N := (-1); t_start := 0;
           sampling_freq := 2; sd := 1 # 10 |} = Ok (times, lam, predicted, true) /\
      shape1 predicted = 1%nat)
      by (eexists _, _, _, _; split; vm_compute; reflexivity).
    destruct Hrun as (times & lam & predicted & true & Hrun & Hcols).
    specialize (Hclaim times lam predicted true 1 2%nat Hrun).
    simpl in Hclaim. rewrite Hcols in Hclaim.
    assert (Hwin : instants_in_window 0 1 2 2).
    { intros k. unfold instant. split.
      - intros Hk. destruct k as [|[|k]]; [split; qcmp | split; qcmp | lia].
      - intros [_ Hk]. destruct k as [|[|k]]; [lia | lia | exfalso].
        assert (H2 : 2 <= inject_Z (Z.of_nat (S (S k)))).
        { change 2 with (inject_Z 2). rewrite <- Zle_Qle. lia. }
        assert (Hhalf : 1 / 2 == 1 # 2) by reflexivity.
        rewrite Hhalf in Hk. lra. }
    specialize (Hclaim eq_refl Hwin).
    discriminate Hclaim.
  - assert (Hrun : exists times lam predicted true,
      generate exp_series exact_grid cycle_rng
        {| u_0 := 3 # 4; time_range := [0; 0]; domain := Dom2 [[0; 1]];
           lambda_true := 1 # 2; num_samples := 2; N := 5; t_start := 1;
           sampling_freq := (-2); sd := 1 # 10 |} = Ok (times, lam, predicted, true) /\
      times = [1 + inject_Z 0 * (1 / (-2)); 1 + inject_Z 1 * (1 / (-2))] /\
      shape1 predicted = 2%nat)
      by (eexists _, _, _, _; split; [|split]; vm_compute; reflexivity).
    destruct Hrun as (times & lam & predicted & true & Hrun & _ & Hcols).
    specialize (Hclaim times lam predicted true 0 0%nat Hrun).
    simpl in Hclaim. rewrite Hcols in Hclaim.
    assert (Hwin : instants_in_window 1 0 (-2) 0).
    { intros k. split; [lia|]. intros [H1 H2]. exfalso.
      apply (Qlt_irrefl 1). apply Qle_lt_trans with (instant 1 (-2) k); [exact H1|].
      apply Qlt_trans with 0; [exact H2 | reflexivity]. }
    specialize (Hclaim eq_refl Hwin).
    discriminate Hclaim.
  - assert (Hrun : exists lam predicted true,
      generate exp_series (fun _ _ _ => Ok g) cycle_rng
        {| u_0 := 3 # 4; time_range := [0; 1]; domain := Dom2 [[0; 1]];
           lambda_true := 1 # 2; num_samples := 2; N := 100; t_start := 0;
           sampling_freq := 49; sd := 1 # 10 |}
      = Ok (firstn 100 g, lam, predicted, true) /\
      shape1 predicted = length (firstn 100 g)).
    { eexists _, _, _. split; [reflexivity | apply u_t_lambda_shape1]. }
    destruct Hrun as (lam & predicted & true & Hrun & Hcols).
    specialize (Hclaim _ lam predicted true 1 49%nat Hrun eq_refl instants_at_49_Hz).
    rewrite Hcols, length_firstn, Hg in Hclaim.
    discriminate Hclaim.
Qed.

(** C10.  A returning call of [exp_decay_one] gives as observed vector the
    model output [u_0 * exp(-lambda_true * t)] at each returned time; the
    same vector and the same times come back whatever variates the random
    generator draws, and the generating cell of a scenario returns the same
    data whatever noise level the scenario sets. *)
Theorem exp_decay_one_true_is_noise_free (np_exp : Q -> Q)
    (np_arange : Q -> Q -> Q -> result pyexc (list Q)) (rng : nat -> Q)
    (c : scenario) (times lam : list Q) (predicted : ndarray2) (true : list Q) :
  generate np_exp np_arange rng c = Ok (times, lam, predicted, true) ->
  true = trajectory np_exp (u_0 c) (lambda_true c) times /\
  (forall rng', exists lam' predicted',
     generate np_exp np_arange rng' c = Ok (times, lam', predicted', true)) /\
  (forall sd', generate np_exp np_arange rng (with_sd c sd') = Ok (times, lam, predicted, true)).
Proof.
  intros H. split; [|split].
  - unfold generate in H.
    apply exp_decay_one_ok in H
      as (t_end & grid & mn & mx & _ & _ & _ & _ & _ & _ & _ & Htrue & _).
    exact Htrue.
  - intros rng'. unfold generate in *. unfold exp_decay_one in *.
    apply bind_ok in H as (t0 & H0 & H).
    apply bind_ok in H as (t_end & H1 & H).
    apply bind_ok in H as (step & H2 & H).
    apply bind_ok in H as (grid & H3 & H).
    apply bind_ok in H as (mn & H4 & H).
    apply bind_ok in H as (mx & H5 & H).
    apply bind_ok in H as (ls & Hls & H).
    apply bind_ok in H as (tr & Htr & H).
    injection H as <- <- <- <-.
    destruct (uniform_rvs_any_rng rng rng' _ _ _ _ Hls) as [ls' Hls'].
    rewrite H0; cbn [bind]. rewrite H1; cbn [bind]. rewrite H2; cbn [bind].
    rewrite H3; cbn [bind]. rewrite H4; cbn [bind]. rewrite H5; cbn [bind].
    rewrite Hls'; cbn [bind]. rewrite Htr; cbn [bind]. eauto.
  - intros sd'. exact H.
Qed.

Lemma exp_decay_one_true_is_noise_free_witness :
  exists times lam predicted true,
    generate exp_series exact_grid cycle_rng
      {| u_0 := 3 # 4; time_range := [0; 1]; domain := Dom2 [[0; 1]];
         lambda_true := 1 # 2; num_samples := 2; N := 5; t_start := 0;
         sampling_freq := 2; sd := 1 # 10 |} = Ok (times, lam, predicted, true) /\
    true = trajectory exp_series (3 # 4) (1 # 2) times.
Proof.
  eexists _, _, _, _.
  assert (Hrun :
    generate exp_series exact_grid cycle_rng
      {| u_0 := 3 # 4; time_range := [0; 1]; domain := Dom2 [[0; 1]];
         lambda_true := 1 # 2; num_samples := 2; N := 5; t_start := 0;
         sampling_freq := 2; sd := 1 # 10 |} = Ok _) by (vm_compute; reflexivity).
  split; [exact Hrun |].
  exact (proj1 (exp_decay_one_true_is_noise_free _ _ _ _ _ _ _ _ Hrun)).
Defined.



End NotebookFacts.

(** ** Weighted statistics *)

Module EssFacts.
Import Mud.

Lemma count_cons (a : Q) (l : list Q) : count (a :: l) == count l + 1.
Proof.
  unfold count. cbn [length]. rewrite Nat2Z.inj_succ, <- Z.add_1_r, inject_Z_plus.
  reflexivity.
Qed.

Lemma sum_cons (a : Q) (l : list Q) : sum (a :: l) = a + sum l.
Proof. reflexivity. Qed.

Lemma sumsq_cons (a : Q) (l : list Q) : sumsq (a :: l) = a * a + sumsq l.
Proof. reflexivity. Qed.

Lemma sqdist_cons (a x : Q) (l : list Q) :
  sqdist a (x :: l) = (a - x) * (a - x) + sqdist a l.
Proof. reflexivity. Qed.

Lemma square_nonneg (x : Q) : 0 <= x * x.
Proof.
  destruct (Qlt_le_dec x 0) as [H|H].
  - setoid_replace (x * x) with ((- x) * (- x)) by ring.
    apply Qmult_le_0_compat; lra.
  - now apply Qmult_le_0_compat.
Qed.

Lemma square_zero (x : Q) : x * x == 0 -> x == 0.
Proof. intros H. apply Qmult_integral in H. tauto. Qed.

Lemma sqdist_expand (a : Q) (l : list Q) :
  sqdist a l == count l * (a * a) - 2 * a * sum l + sumsq l.
Proof.
  induction l as [|x l IH].
  - unfold sqdist, count, sumsq. simpl. ring.
  - rewrite sqdist_cons, sum_cons, sumsq_cons, count_cons, IH. ring.
Qed.

Lemma sqdist_nonneg (a : Q) (l : list Q) : 0 <= sqdist a l.
Proof.
  induction l as [|x l IH]; [discriminate|].
  rewrite sqdist_cons. pose proof (square_nonneg (a - x)). lra.
Qed.

Lemma sqdist_zero (a : Q) (l : list Q) :
  sqdist a l == 0 <-> (forall x, In x l -> x == a).
Proof.
  induction l as [|x l IH].
  - split; [intros _ y [] | reflexivity].
  - rewrite sqdist_cons.
    pose proof (square_nonneg (a - x)) as Hx.
    pose proof (sqdist_nonneg a l) as Hl.
    split.
    + intros H y [<-|Hy].
      * assert (H0 : (a - x) * (a - x) == 0) by lra.
        apply square_zero in H0. lra.
      * apply IH; [lra | exact Hy].
    + intros H.
      assert (Hxa : x == a) by (apply H; left; reflexivity).
      assert (H0 : sqdist a l == 0) by (apply IH; intros y Hy; apply H; right; exact Hy).
      rewrite H0. setoid_replace (a - x) with 0 by lra. ring.
Qed.

Lemma spread_cons (a : Q) (l : list Q) :
  spread (a :: l) == spread l + sqdist a l.
Proof.
  unfold spread. rewrite sqdist_expand, sum_cons, sumsq_cons, count_cons. ring.
Qed.

Lemma spread_nonneg (l : list Q) : 0 <= spread l.
Proof.
  induction l as [|a l IH]; [discriminate|].
  rewrite spread_cons. pose proof (sqdist_nonneg a l). lra.
Qed.

Lemma spread_zero (l : list Q) :
  spread l == 0 <-> (forall x y, In x l -> In y l -> x == y).
Proof.
  induction l as [|a l IH].
  - split; [intros _ x y [] | reflexivity].
  - rewrite spread_cons.
    pose proof (spread_nonneg l) as H1. pose proof (sqdist_nonneg a l) as H2.
    split.
    + intros H.
      assert (Hs : spread l == 0) by lra.
      assert (Hd : sqdist a l == 0) by lra.
      pose proof (proj1 IH Hs) as Hs'. pose proof (proj1 (sqdist_zero a l) Hd) as Hd'.
      intros x y [<-|Hx] [<-|Hy].
      * reflexivity.
      * symmetry. now apply Hd'.
      * now apply Hd'.
      * now apply Hs'.
    + intros H.
      assert (Hs : spread l == 0).
      { apply IH. intros x y Hx Hy. apply H; right; assumption. }
      assert (Hd : sqdist a l == 0).
      { apply sqdist_zero. intros x Hx. apply H; [right; exact Hx | left; reflexivity]. }
      lra.
Qed.

Lemma sum_nonneg (l : list Q) : Forall (fun x => 0 <= x) l -> 0 <= sum l.
Proof.
  induction 1 as [|x l Hx _ IH]; [discriminate|]. rewrite sum_cons. lra.
Qed.

Lemma sumsq_nonneg (l : list Q) : 0 <= sumsq l.
Proof.
  induction l as [|x l IH]; [discriminate|].
  rewrite sumsq_cons. pose proof (square_nonneg x). lra.
Qed.

Lemma sumsq_pos (l : list Q) : Exists (fun x => ~ x == 0) l -> 0 < sumsq l.
Proof.
  induction 1 as [x l Hx|x l _ IH]; rewrite sumsq_cons.
  - pose proof (square_nonneg x) as H0. pose proof (sumsq_nonneg l).
    assert (Hne : ~ x * x == 0) by (intros E; apply Hx, square_zero, E).
    assert (0 < x * x) by (apply Qle_lteq in H0 as [H0|H0]; [exact H0 | symmetry in H0; contradiction]).
    lra.
  - pose proof (square_nonneg x). lra.
Qed.

Lemma sumsq_le_square_sum (l : list Q) :
  Forall (fun x => 0 <= x) l -> sumsq l <= sum l * sum l.
Proof.
  induction 1 as [|x l Hx Hl IH]; [discriminate|].
  rewrite sumsq_cons, sum_cons.
  pose proof (sum_nonneg l Hl) as Hs.
  assert (H0 : 0 <= x * sum l) by (now apply Qmult_le_0_compat).
  setoid_replace ((x + sum l) * (x + sum l))
    with (x * x + 2 * (x * sum l) + sum l * sum l) by ring.
  lra.
Qed.

Example ess_examples :
  ess [1; 2; 3] == 18 # 7 /\ ess [2; 2; 2] == 3 /\ ess [0; 5; 0] == 1.
Proof. repeat split. Qed.

(** C4.  For non-negative weights that are not all zero, the effective
    sample size [(sum w)^2 / (sum w^2)] lies between 1 and the number [N] of
    weights, and it equals [N] only when all weights are equal. *)
Theorem ess_bounds (w : list Q) :
  Forall (fun x => 0 <= x) w ->
  Exists (fun x => ~ x == 0) w ->
  1 <= ess w /\
  ess w <= inject_Z (Z.of_nat (length w)) /\
  (ess w == inject_Z (Z.of_nat (length w)) ->
   forall x y, In x w -> In y w -> x == y).
Proof.
  intros Hnn Hnz.
  pose proof (sumsq_pos w Hnz) as Hpos.
  pose proof (sumsq_le_square_sum w Hnn) as Hlow.
  pose proof (spread_nonneg w) as Hup.
  unfold spread, count in Hup. fold (sumsq w) in *.
  change (sum (map (fun x => x * x) w)) with (sumsq w) in *.
  unfold ess. change (sum (map (fun x => x * x) w)) with (sumsq w).
  split; [|split].
  - apply Qle_shift_div_l; [exact Hpos | lra].
  - apply Qle_shift_div_r; [exact Hpos | lra].
  - intros Heq. apply spread_zero. unfold spread, count.
    assert (Hm : sum w * sum w / sumsq w * sumsq w == sum w * sum w).
    { field. intros E. rewrite E in Hpos. discriminate Hpos. }
    rewrite Heq in Hm. lra.
Qed.

Lemma ess_bounds_witness :
  (Forall (fun x => 0 <= x) [1; 2; 3] /\ Exists (fun x => ~ x == 0) [1; 2; 3]) /\
  1 <= ess [1; 2; 3] /\ ess [1; 2; 3] <= inject_Z (Z.of_nat 3).
Proof.
  assert (Hnn : Forall (fun x => 0 <= x) [1; 2; 3]) by (repeat constructor; discriminate).
  assert (Hnz : Exists (fun x => ~ x == 0) [1; 2; 3]) by (left; discriminate).
  split; [split; assumption|].
  destruct (ess_bounds [1; 2; 3] Hnn Hnz) as (H1 & H2 & _).
  split; assumption.
Defined.

End EssFacts.

(** ** The estimator *)

Module MudFacts.
Import Np NpFacts Mud.

(** *** The arg-max scan *)

Lemma argmax_from_first_max (l seen : list Q) (bi : nat) (b : Q) :
  nth_error seen bi = Some b ->
  (forall j y, nth_error seen j = Some y -> y <= b) ->
  (forall j y, (j < bi)%nat -> nth_error seen j = Some y -> y < b) ->
  first_max (seen ++ l) (argmax_from bi b (length seen) l).
Proof.
  revert seen bi b.
  induction l as [|x t IH]; intros seen bi b Hb Hle Hlt.
  - rewrite app_nil_r. exists b. auto.
  - assert (Hbi : (bi < length seen)%nat)
      by (apply nth_error_Some; rewrite Hb; discriminate).
    cbn [argmax_from].
    replace (seen ++ x :: t) with ((seen ++ [x]) ++ t)
      by (rewrite <- app_assoc; reflexivity).
    assert (Hlen : length (seen ++ [x]) = S (length seen))
      by (rewrite length_app; simpl; lia).
    destruct (Qle_bool x b) eqn:E.
    + apply Qle_bool_iff in E.
      specialize (IH (seen ++ [x]) bi b). rewrite Hlen in IH. apply IH.
      * rewrite nth_error_app1 by exact Hbi. exact Hb.
      * intros j y Hj.
        destruct (Nat.lt_ge_cases j (length seen)) as [Hlt'|Hge].
        -- rewrite nth_error_app1 in Hj by exact Hlt'. eauto.
        -- rewrite nth_error_app2 in Hj by exact Hge.
           destruct (j - length seen)%nat as [|[|?]]; simpl in Hj;
             try discriminate. injection Hj as <-. exact E.
      * intros j y Hjb Hj.
        rewrite nth_error_app1 in Hj by lia. eauto.
    + assert (Hbx : b < x).
      { apply Qnot_le_lt. intros H. apply Qle_bool_iff in H. congruence. }
      specialize (IH (seen ++ [x]) (length seen) x). rewrite Hlen in IH. apply IH.
      * rewrite nth_error_app2 by lia. rewrite Nat.sub_diag. reflexivity.
      * intros j y Hj.
        destruct (Nat.lt_ge_cases j (length seen)) as [Hlt'|Hge].
        -- rewrite nth_error_app1 in Hj by exact Hlt'.
           apply Qlt_le_weak, Qle_lt_trans with b; eauto.
        -- rewrite nth_error_app2 in Hj by exact Hge.
           destruct (j - length seen)%nat as [|[|?]]; simpl in Hj;
             try discriminate. injection Hj as <-. apply Qle_refl.
      * intros j y Hjb Hj.
        rewrite nth_error_app1 in Hj by exact Hjb.
        apply Qle_lt_trans with b; eauto.
Qed.

(** Equal scores, also when written differently, go to the earlier one. *)
Example argmax_examples :
  argmax [1; 3; 2; 6 # 2; 3] = Some 1%nat /\
  argmax [5] = Some 0%nat /\
  argmax [] = None.
Proof. repeat split. Qed.

Lemma argmax_first_max (l : list Q) (k : nat) :
  argmax l = Some k -> first_max l k.
Proof.
  destruct l as [|x t]; [discriminate|]. cbn [argmax]. intros H. injection H as <-.
  apply (argmax_from_first_max t [x] 0 x).
  - reflexivity.
  - intros [|[|j]] y Hj; simpl in Hj; try discriminate.
    injection Hj as <-. apply Qle_refl.
  - intros j y Hj. lia.
Qed.

Lemma argmax_some (l : list Q) : l <> [] -> exists k, argmax l = Some k.
Proof. destruct l; [congruence | simpl; eauto]. Qed.

Lemma first_max_lt_length (l : list Q) (k : nat) :
  first_max l k -> (k < length l)%nat.
Proof.
  intros (m & Hm & _). apply nth_error_Some. rewrite Hm. discriminate.
Qed.

(** *** Elementwise products *)

Lemma zip_with_length {A B C} (f : A -> B -> C) (a : list A) (b : list B) :
  length (zip_with f a b) = Nat.min (length a) (length b).
Proof.
  revert b. induction a as [|x a IH]; intros [|y b]; simpl; auto.
Qed.

Lemma zip_with3_length {A B C D} (f : A -> B -> C -> D)
    (a : list A) (b : list B) (c : list C) :
  length (zip_with3 f a b c) = Nat.min (length a) (Nat.min (length b) (length c)).
Proof.
  revert b c. induction a as [|x a IH]; intros [|y b] [|z c]; simpl; auto.
Qed.

(** *** The constructor *)

Lemma mud_problem_ok (d : list (Q * Q)) (l : list (list Q)) (q : ndarray2)
    (s : Q) (qt : list Q) (n : Z) (w : option (list Q)) (p : problem) :
  mud_problem d l q s qt n w = Ok p ->
  l <> [] /\ shape0 q = length l /\ shape1 q = length qt /\
  length (weights p) = length l /\
  p = mk_problem d l q s qt n
        (match w with Some v => v | None => repeat 1 (length l) end)
        None None None None.
Proof.
  unfold mud_problem.
  destruct (Nat.eqb (length l) 0) eqn:E0; [discriminate|].
  destruct (Nat.eqb (shape0 q) (length l)) eqn:E1; [|discriminate].
  destruct (Nat.eqb (shape1 q) (length qt)) eqn:E2; [|discriminate].
  apply Nat.eqb_neq in E0. apply Nat.eqb_eq in E1, E2. cbn [negb].
  assert (Hl : l <> []) by (intros ->; apply E0; reflexivity).
  destruct w as [v|].
  - destruct (Nat.eqb (length v) (length l)) eqn:E3; [|discriminate].
    apply Nat.eqb_eq in E3. intros H. injection H as <-. auto.
  - intros H. injection H as <-. cbn [weights]. rewrite repeat_length. auto.
Qed.

(** *** Solving and estimating *)

Section Backend.

Variable fit : list (list Q) -> list Q -> result mud_error (list Q -> Q).
Variable norm_pdf : gaussian -> Q -> Q.
Variable mean_discrepancy : ndarray2 -> list Q -> Q.
Variable eps : Q.

(** Solving a problem that has just been constructed. *)
Lemma solve_fresh (d : list (Q * Q)) (l : list (list Q)) (q : ndarray2)
    (s : Q) (qt : list Q) (n : Z) (w : option (list Q)) (p : problem)
    (f_in f_pr : list Q -> Q) :
  mud_problem d l q s qt n w = Ok p ->
  fit l (weights p) = Ok f_in ->
  fit (map (fun y => [y]) (q_of p)) (weights p) = Ok f_pr ->
  solve fit norm_pdf mean_discrepancy eps p =
  Ok (mk_problem d l q s qt n (weights p)
        (Some (map f_in l))
        (Some (map (fun y => f_pr [y]) (q_of p)))
        (Some (compute_ob mean_discrepancy p))
        (Some (zip_with3 (ratio eps) (weights p)
                 (map (norm_pdf (compute_ob mean_discrepancy p)) (q_of p))
                 (map (fun y => f_pr [y]) (q_of p))))).
Proof.
  intros Hc Hin Hpr.
  apply mud_problem_ok in Hc as (_ & _ & _ & _ & Hp).
  unfold solve, compute_in, compute_pr, compute_r.
  rewrite Hp in Hin, Hpr |- *. cbn [lam weights _in _pr _ob _r cached] in *.
  rewrite Hin. cbn [bind]. rewrite Hpr. reflexivity.
Qed.

(** A solved problem has its four derived quantities filled in, and the
    inputs are those of the problem it came from. *)
Lemma solve_fills (p p' : problem) :
  solve fit norm_pdf mean_discrepancy eps p = Ok p' ->
  exists vin vpr g r,
    p' = mk_problem (domain p) (lam p) (qoi p) (sd p) (qoi_true p) (num_obs p)
           (weights p) (Some vin) (Some vpr) (Some g) (Some r).
Proof.
  unfold solve. intros H.
  apply bind_ok in H as (vin & _ & H).
  apply bind_ok in H as (vpr & _ & H).
  apply bind_ok in H as (g & _ & H).
  apply bind_ok in H as (r & _ & H).
  injection H as <-. eauto.
Qed.

(** Whenever [estimate()] returns, the sample returned is the one at the
    first largest score, and the object returned is the solved problem. *)
Lemma estimate_sound (p p' : problem) (x : list Q) :
  estimate fit norm_pdf mean_discrepancy eps p = Ok (x, p') ->
  solve fit norm_pdf mean_discrepancy eps p = Ok p' /\
  exists i, nth_error (lam p) i = Some x /\ first_max (scores p') i.
Proof.
  unfold estimate. intros H.
  apply bind_ok in H as (p1 & Hs & H).
  destruct (argmax (scores p1)) as [i|] eqn:Ea; [|discriminate].
  destruct (nth_error (lam p1) i) as [y|] eqn:En; [|discriminate].
  injection H as <- <-. split; [exact Hs|].
  exists i. split; [|now apply argmax_first_max].
  apply solve_fills in Hs as (vin & vpr & g & r & ->). exact En.
Qed.

End Backend.

(** A problem made by the constructor on which the two density fits
    succeed: [estimate()] returns, the score of sample [i] is
    [pi_in(lambda_i) * r_i], and the sample returned is at the first largest
    score. *)
Lemma estimate_fresh
    (fit : list (list Q) -> list Q -> result mud_error (list Q -> Q))
    (norm_pdf : gaussian -> Q -> Q) (mean_discrepancy : ndarray2 -> list Q -> Q)
    (eps : Q)
    (d : list (Q * Q)) (l : list (list Q)) (q : ndarray2)
    (s : Q) (qt : list Q) (n : Z) (w : option (list Q)) (p : problem)
    (f_in f_pr : list Q -> Q) :
  mud_problem d l q s qt n w = Ok p ->
  fit l (weights p) = Ok f_in ->
  fit (map (fun y => [y]) (q_of p)) (weights p) = Ok f_pr ->
  exists i x p',
    estimate fit norm_pdf mean_discrepancy eps p = Ok (x, p') /\
    nth_error l i = Some x /\
    scores p' =
      zip_with Qmult (map f_in l)
        (zip_with3 (ratio eps) (weights p)
           (map (norm_pdf (compute_ob mean_discrepancy p)) (q_of p))
           (map (fun y => f_pr [y]) (q_of p))) /\
    length (scores p') = length l /\
    first_max (scores p') i.
Proof.
  intros Hc Hin Hpr.
  pose proof (solve_fresh fit norm_pdf mean_discrepancy eps _ _ _ _ _ _ _ _ _ _
                Hc Hin Hpr) as Hs.
  apply mud_problem_ok in Hc as (Hne & Hrows & _ & Hw & Hp).
  set (p' := mk_problem d l q s qt n (weights p) _ _ _ _) in Hs.
  assert (Hlen : length (scores p') = length l).
  { assert (Hq : length (q_of p) = length l).
    { unfold q_of. rewrite length_map, Hp. exact Hrows. }
    subst p'. unfold scores. cbn [_in _r].
    rewrite zip_with_length, zip_with3_length, !length_map. lia. }
  destruct (argmax_some (scores p')) as [i Hi].
  { intros E. rewrite E in Hlen. destruct l; [congruence | discriminate]. }
  pose proof (argmax_first_max _ _ Hi) as Hfm.
  pose proof (first_max_lt_length _ _ Hfm) as Hil. rewrite Hlen in Hil.
  destruct (nth_error l i) as [x|] eqn:Hx;
    [|apply nth_error_None in Hx; lia].
  exists i, x, p'.
  split; [|split; [exact Hx | split; [reflexivity | split; [exact Hlen | exact Hfm]]]].
  unfold estimate. rewrite Hs. cbn [bind]. rewrite Hi.
  subst p'. cbn [lam]. rewrite Hx. reflexivity.
Qed.

(** [estimate()] on a problem made by the constructor returns only when the
    two density fits have succeeded. *)
Lemma estimate_needs_fits
    (fit : list (list Q) -> list Q -> result mud_error (list Q -> Q))
    (norm_pdf : gaussian -> Q -> Q) (mean_discrepancy : ndarray2 -> list Q -> Q)
    (eps : Q)
    (d : list (Q * Q)) (l : list (list Q)) (q : ndarray2)
    (s : Q) (qt : list Q) (n : Z) (w : option (list Q)) (p p' : problem)
    (x : list Q) :
  mud_problem d l q s qt n w = Ok p ->
  estimate fit norm_pdf mean_discrepancy eps p = Ok (x, p') ->
  exists f_in f_pr,
    fit l (weights p) = Ok f_in /\
    fit (map (fun y => [y]) (q_of p)) (weights p) = Ok f_pr.
Proof.
  intros Hc He.
  apply mud_problem_ok in Hc as (_ & _ & _ & _ & Hp).
  apply estimate_sound in He as [Hs _].
  unfold solve in Hs. rewrite Hp in Hs. cbn [_in _pr cached] in Hs.
  rewrite <- Hp in Hs.
  apply bind_ok in Hs as (vin & Hin & Hs).
  apply bind_ok in Hs as (vpr & Hpr & _).
  unfold compute_in in Hin. apply bind_ok in Hin as (f_in & Hin & _).
  unfold compute_pr in Hpr. apply bind_ok in Hpr as (f_pr & Hpr & _).
  exists f_in, f_pr. rewrite Hp in Hin at 1. cbn [lam] in Hin. auto.
Qed.

(** C1.  For a problem made by the constructor (so with a non-empty sample
    set), [estimate()] returns exactly when the two density fits succeed, and
    what it returns is a sample of the sample set: the one at the first
    position whose score [pi_in(lambda_i) * r_i] is at least every other
    score, the scores being those of the [N] samples. *)
Theorem estimate_returns_first_argmax
    (fit : list (list Q) -> list Q -> result mud_error (list Q -> Q))
    (norm_pdf : gaussian -> Q -> Q) (mean_discrepancy : ndarray2 -> list Q -> Q)
    (eps : Q)
    (d : list (Q * Q)) (l : list (list Q)) (q : ndarray2)
    (s : Q) (qt : list Q) (n : Z) (w : option (list Q)) (p : problem) :
  mud_problem d l q s qt n w = Ok p ->
  ((exists x p', estimate fit norm_pdf mean_discrepancy eps p = Ok (x, p')) <->
   (exists f_in f_pr,
      fit l (weights p) = Ok f_in /\
      fit (map (fun y => [y]) (q_of p)) (weights p) = Ok f_pr)) /\
  forall x p',
    estimate fit norm_pdf mean_discrepancy eps p = Ok (x, p') ->
    exists i f_in f_pr,
      fit l (weights p) = Ok f_in /\
      fit (map (fun y => [y]) (q_of p)) (weights p) = Ok f_pr /\
      nth_error l i = Some x /\
      scores p' =
        zip_with Qmult (map f_in l)
          (zip_with3 (ratio eps) (weights p)
             (map (norm_pdf (compute_ob mean_discrepancy p)) (q_of p))
             (map (fun y => f_pr [y]) (q_of p))) /\
      length (scores p') = length l /\
      first_max (scores p') i.
Proof.
  intros Hc. split.
  - split.
    + intros (x & p' & He). exact (estimate_needs_fits _ _ _ _ _ _ _ _ _ _ _ _ _ _ Hc He).
    + intros (f_in & f_pr & Hin & Hpr).
      destruct (estimate_fresh fit norm_pdf mean_discrepancy eps
                  _ _ _ _ _ _ _ _ _ _ Hc Hin Hpr) as (i & x & p' & He & _).
      eauto.
  - intros x p' He.
    destruct (estimate_needs_fits _ _ _ _ _ _ _ _ _ _ _ _ _ _ Hc He)
      as (f_in & f_pr & Hin & Hpr).
    destruct (estimate_fresh fit norm_pdf mean_discrepancy eps
                _ _ _ _ _ _ _ _ _ _ Hc Hin Hpr)
      as (i & x0 & p0 & He0 & Hx & Hsc & Hlen & Hfm).
    rewrite He in He0. injection He0 as <- <-.
    exists i, f_in, f_pr. auto 10.
Qed.

Lemma estimate_returns_first_argmax_witness :
  exists p x p',
    (mud_problem [(0, 1)] [[1 # 4]; [1 # 2]; [3 # 4]]
                 (mk2d 2 [[1; 1]; [2; 2]; [3; 3]]) (1 # 10) [2; 2] 2 None = Ok p /\
     estimate hat_fit bump_pdf no_discrepancy 0 p = Ok (x, p')) /\
    x = [1 # 2] /\
    exists i,
      nth_error [[1 # 4]; [1 # 2]; [3 # 4]] i = Some x /\
      first_max (scores p') i.
Proof.
  eexists _, _, _.
  assert (Hc : mud_problem [(0, 1)] [[1 # 4]; [1 # 2]; [3 # 4]]
                 (mk2d 2 [[1; 1]; [2; 2]; [3; 3]]) (1 # 10) [2; 2] 2 None = Ok _)
    by reflexivity.
  assert (He : estimate hat_fit bump_pdf no_discrepancy 0
                 (mk_problem [(0, 1)] [[1 # 4]; [1 # 2]; [3 # 4]]
                    (mk2d 2 [[1; 1]; [2; 2]; [3; 3]]) (1 # 10) [2; 2] 2 [1; 1; 1]
                    None None None None) = Ok (_, _)) by (vm_compute; reflexivity).
  split; [split; [exact Hc | exact He] |].
  split; [reflexivity|].
  destruct (proj2 (estimate_returns_first_argmax hat_fit bump_pdf no_discrepancy 0
                     _ _ _ _ _ _ _ _ Hc) _ _ He)
    as (i & _ & _ & _ & _ & Hx & _ & _ & Hfm).
  exists i. split; [exact Hx | exact Hfm].
Defined.

(** C6.  When [estimate()] has returned, calling it again on the object it
    left behind returns the same sample and leaves the same object; the
    second call reads the stored quantities only, so its result is the same
    whatever the density backend, the Gaussian, the discrepancy or the
    threshold would compute now. *)
Theorem estimate_twice_is_cached
    (fit : list (list Q) -> list Q -> result mud_error (list Q -> Q))
    (norm_pdf : gaussian -> Q -> Q) (mean_discrepancy : ndarray2 -> list Q -> Q)
    (eps : Q) (p p' : problem) (x : list Q) :
  estimate fit norm_pdf mean_discrepancy eps p = Ok (x, p') ->
  forall fit' norm_pdf' mean_discrepancy' eps',
    estimate fit' norm_pdf' mean_discrepancy' eps' p' = Ok (x, p').
Proof.
  unfold estimate at 1. intros H fit' norm_pdf' md' eps'.
  apply bind_ok in H as (p1 & Hs & H).
  destruct (argmax (scores p1)) as [i|] eqn:Ea; [|discriminate].
  destruct (nth_error (lam p1) i) as [y|] eqn:En; [|discriminate].
  injection H as <- <-.
  apply solve_fills in Hs as (vin & vpr & g & r & ->).
  unfold estimate, solve. cbn [_in _pr _ob _r cached bind domain lam qoi sd
                               qoi_true num_obs weights].
  rewrite Ea. cbn [lam] in En |- *. rewrite En. reflexivity.
Qed.

Lemma estimate_twice_is_cached_witness :
  exists x p',
    estimate hat_fit bump_pdf no_discrepancy 0
      (mk_problem [(0, 1)] [[1 # 4]; [1 # 2]; [3 # 4]]
         (mk2d 2 [[1; 1]; [2; 2]; [3; 3]]) (1 # 10) [2; 2] 2 [1; 1; 1]
         None None None None) = Ok (x, p') /\
    estimate hat_fit bump_pdf no_discrepancy 0 p' = Ok (x, p').
Proof.
  eexists _, _.
  assert (H1 : estimate hat_fit bump_pdf no_discrepancy 0
      (mk_problem [(0, 1)] [[1 # 4]; [1 # 2]; [3 # 4]]
         (mk2d 2 [[1; 1]; [2; 2]; [3; 3]]) (1 # 10) [2; 2] 2 [1; 1; 1]
         None None None None) = Ok (_, _)) by (vm_compute; reflexivity).
  split; [exact H1|].
  exact (estimate_twice_is_cached _ _ _ _ _ _ _ H1 hat_fit bump_pdf no_discrepancy 0).
Defined.

(** The noise level of a problem enters its derived quantities through the
    variance of the observed density only: two problems that differ in [sd]
    alone keep the same data and have the same initial density, predicted
    density and observed mean. *)
Lemma sd_enters_through_variance_only
    (fit : list (list Q) -> list Q -> result mud_error (list Q -> Q))
    (mean_discrepancy : ndarray2 -> list Q -> Q)
    (d : list (Q * Q)) (l : list (list Q)) (q : ndarray2)
    (s s' : Q) (qt : list Q) (n : Z) (w : option (list Q)) (p p' : problem) :
  mud_problem d l q s qt n w = Ok p ->
  mud_problem d l q s' qt n w = Ok p' ->
  qoi p = qoi p' /\ qoi_true p = qoi_true p' /\
  compute_in fit p = compute_in fit p' /\
  compute_pr fit p = compute_pr fit p' /\
  g_mean (compute_ob mean_discrepancy p) = g_mean (compute_ob mean_discrepancy p').
Proof.
  intros H H'.
  apply mud_problem_ok in H as (_ & _ & _ & _ & ->).
  apply mud_problem_ok in H' as (_ & _ & _ & _ & ->).
  repeat split.
Qed.

(** No constructor can both refuse every row-count mismatch with a shape
    error and refuse every empty sample set with [EmptySampleSetError]: an
    empty sample set with a one-row matrix falls under both. *)
Lemma shape_and_empty_clauses_clash
    (ctor : list (list Q) -> ndarray2 -> result mud_error problem) :
  ~ ((forall l q, shape0 q <> length l ->
        ctor l q = Raise ShapeMismatchError \/ ctor l q = Raise DimensionMismatchError) /\
     (forall l q, l = [] -> ctor l q = Raise EmptySampleSetError)).
Proof.
  intros [Hshape Hempty].
  specialize (Hshape [] (mk2d 1 [[1]]) ltac:(discriminate)).
  specialize (Hempty [] (mk2d 1 [[1]]) eq_refl).
  rewrite Hempty in Hshape. destruct Hshape; discriminate.
Qed.

End MudFacts.

(** ** The sequential batches *)

Module SequentialFacts.
Import Np NpFacts Notebook.

Section Loop.

Variables Domain Lam Problem Est W E : Type.
Variable mud_problem :
  Domain -> Lam -> ndarray2 -> Q -> list Q -> Z -> option W -> result E Problem.
Variable estimate : Problem -> result E (Est * Problem).
Variable _r : Problem -> option W.

Variables (domain : Domain) (lam : Lam) (qoi_it : list ndarray2) (sd : Q)
          (qoi_true_it : list (list Q)) (num_obs : Z).

Local Notation "'body'" :=
  (loop_body mud_problem estimate _r domain lam qoi_it sd qoi_true_it num_obs).
Local Notation "'fed'" := (weights_fed _r).
Local Notation "'pass'" :=
  (pass_ok mud_problem estimate _r domain lam qoi_it sd qoi_true_it num_obs).

Lemma np_call_ok {A} (m : result pyexc A) (a : A) :
  np_call E m = Ok a -> m = Ok a.
Proof. destruct m; simpl; intros H; [congruence | discriminate]. Qed.

Lemma mud_call_ok {A} (m : result E A) (a : A) :
  mud_call m = Ok a -> m = Ok a.
Proof. destruct m; simpl; intros H; [congruence | discriminate]. Qed.

Lemma loop_body_ok (w : option W) (solves : list Problem) (printed : list Est)
    (i : nat) (st' : loop_state Problem Est W) :
  body (w, solves, printed) i = Ok st' ->
  exists q t mud_it res p,
    nth_error qoi_it i = Some q /\
    nth_error qoi_true_it i = Some t /\
    mud_problem domain lam q sd t num_obs w = Ok mud_it /\
    estimate mud_it = Ok (res, p) /\
    st' = (_r p, solves ++ [p], printed ++ [res]).
Proof.
  unfold loop_body. intros H.
  apply bind_ok in H as (q & Hq & H). apply np_call_ok, getitem_ok in Hq.
  apply bind_ok in H as (t & Ht & H). apply np_call_ok, getitem_ok in Ht.
  apply bind_ok in H as (mud_it & Hm & H). apply mud_call_ok in Hm.
  apply bind_ok in H as ([res p] & He & H). apply mud_call_ok in He.
  injection H as <-. exists q, t, mud_it, res, p. auto.
Qed.

(** The weights fed to a pass depend on the passes before it only. *)
Lemma fed_prefix (solves more : list Problem) (k : nat) :
  (k <= length solves)%nat -> fed (solves ++ more) k = fed solves k.
Proof.
  destruct k as [|j]; [reflexivity|]. intros Hk. cbn [weights_fed].
  rewrite nth_error_app1 by lia. reflexivity.
Qed.

Lemma fed_last (solves : list Problem) (p : Problem) :
  fed (solves ++ [p]) (S (length solves)) = _r p.
Proof.
  cbn [weights_fed]. rewrite nth_error_app2 by lia.
  rewrite Nat.sub_diag. reflexivity.
Qed.

(** The loop invariant: [weights] is what the list of solved problems feeds
    to the next pass.  Every pass then got the stored [_r] of the pass
    before. *)
Lemma for_range_feeds_weights (idx : list nat) (w wf : option W)
    (solves0 solves : list Problem) (out0 out : list Est) :
  length out0 = length solves0 ->
  w = fed solves0 (length solves0) ->
  for_range body (w, solves0, out0) idx = Ok (wf, solves, out) ->
  length solves = (length solves0 + length idx)%nat /\
  length out = length solves /\
  (exists more, solves = solves0 ++ more) /\
  (exists more, out = out0 ++ more) /\
  wf = fed solves (length solves) /\
  forall k i, nth_error idx k = Some i ->
    pass solves out (length solves0 + k) i.
Proof.
  revert w solves0 out0.
  induction idx as [|i rest IH]; intros w solves0 out0 Hlen Hw H.
  - cbn [for_range] in H. injection H as <- <- <-.
    repeat split.
    + cbn [length]. lia.
    + exact Hlen.
    + exists []. now rewrite app_nil_r.
    + exists []. now rewrite app_nil_r.
    + exact Hw.
    + intros [|k] j Hk; discriminate Hk.
  - cbn [for_range] in H. apply bind_ok in H as (st' & Hb & H).
    apply loop_body_ok in Hb as (q & t & mud_it & res & p & Hq & Ht & Hm & He & ->).
    apply IH in H as (Hl1 & Hl2 & [more Hs] & [moreo Ho] & Hwf & Hpass).
    + rewrite length_app in Hl1. cbn [length] in Hl1 |- *.
      repeat split.
      * lia.
      * exact Hl2.
      * exists ([p] ++ more). rewrite Hs, <- app_assoc. reflexivity.
      * exists ([res] ++ moreo). rewrite Ho, <- app_assoc. reflexivity.
      * exact Hwf.
      * intros [|k] j Hk.
        -- cbn [nth_error] in Hk. injection Hk as <-.
           rewrite Nat.add_0_r.
           exists q, t, mud_it, res, p. repeat split; try assumption.
           ++ rewrite Hs, <- app_assoc, fed_prefix by lia. rewrite <- Hw. exact Hm.
           ++ rewrite Hs, <- app_assoc, nth_error_app2 by lia.
              rewrite Nat.sub_diag. reflexivity.
           ++ rewrite Ho, <- app_assoc, nth_error_app2 by lia.
              rewrite Hlen, Nat.sub_diag. reflexivity.
        -- cbn [nth_error] in Hk. specialize (Hpass k j Hk).
           rewrite length_app in Hpass. cbn [length] in Hpass.
           replace (length solves0 + S k)%nat with (length solves0 + 1 + k)%nat by lia.
           exact Hpass.
    + rewrite !length_app. cbn [length]. lia.
    + rewrite length_app. cbn [length]. rewrite Nat.add_1_r. symmetry. apply fed_last.
Qed.

End Loop.

Section Cell.

Variables Domain Lam Problem Est W E : Type.
Variable mud_problem :
  Domain -> Lam -> ndarray2 -> Q -> list Q -> Z -> option W -> result E Problem.
Variable estimate : Problem -> result E (Est * Problem).
Variable _r : Problem -> option W.

(** A returning cell has split the data and run the loop from
    [weights = None] and [mud_solves = []]. *)
Lemma sequential_cell_ok (num_splits : Z) (ts : list Q) (domain : Domain)
    (lam : Lam) (qoi : ndarray2) (sd : Q) (qoi_true : list Q) (N : Z)
    (st : loop_state Problem Est W) :
  sequential_cell mud_problem estimate _r num_splits ts domain lam qoi sd
                  qoi_true N = Ok st ->
  exists qoi_it qoi_true_it,
    split_axis1 qoi num_splits = Ok qoi_it /\
    split qoi_true num_splits = Ok qoi_true_it /\
    for_range (loop_body mud_problem estimate _r domain lam qoi_it sd
                         qoi_true_it (Z.quot N num_splits))
              (None, [], []) (seq 0 (Z.to_nat num_splits)) = Ok st.
Proof.
  unfold sequential_cell. intros H.
  apply bind_ok in H as (ts_it & _ & H).
  apply bind_ok in H as (qoi_it & Hq & H). apply np_call_ok in Hq.
  apply bind_ok in H as (qoi_true_it & Ht & H). apply np_call_ok in Ht.
  eauto.
Qed.

(** C2.  When the sequential cell has run through, it made one solved
    problem per batch; the constructor of the first batch was given no
    weights ([None]), and the constructor of batch [k+1] was given exactly
    the [_r] that batch [k]'s problem holds after its [estimate()]. *)
Theorem sequential_cell_feeds_previous_ratio (num_splits : Z) (ts : list Q)
    (domain : Domain) (lam : Lam) (qoi : ndarray2) (sd : Q) (qoi_true : list Q)
    (N : Z) (wf : option W) (mud_solves : list Problem) (printed : list Est) :
  sequential_cell mud_problem estimate _r num_splits ts domain lam qoi sd
                  qoi_true N = Ok (wf, mud_solves, printed) ->
  exists qoi_it qoi_true_it,
    split_axis1 qoi num_splits = Ok qoi_it /\
    split qoi_true num_splits = Ok qoi_true_it /\
    length mud_solves = Z.to_nat num_splits /\
    weights_fed _r mud_solves 0 = None /\
    (forall k p, nth_error mud_solves k = Some p ->
       weights_fed _r mud_solves (S k) = _r p) /\
    forall k, (k < Z.to_nat num_splits)%nat ->
      pass_ok mud_problem estimate _r domain lam qoi_it sd qoi_true_it
              (Z.quot N num_splits) mud_solves printed k k.
Proof.
  intros H.
  apply sequential_cell_ok in H as (qoi_it & qoi_true_it & Hq & Ht & H).
  apply for_range_feeds_weights in H as (Hlen & _ & _ & _ & _ & Hpass);
    [|reflexivity|reflexivity].
  rewrite length_seq in Hlen. cbn [length Nat.add] in Hlen, Hpass.
  exists qoi_it, qoi_true_it. repeat split; try assumption.
  - intros k p Hk. cbn [weights_fed]. now rewrite Hk.
  - intros k Hk. apply (Hpass k k).
    rewrite nth_error_seq. apply Nat.ltb_lt in Hk. now rewrite Hk.
Qed.

End Cell.

Lemma sequential_cell_feeds_previous_ratio_witness :
  exists wf mud_solves printed,
    sequential_estimator Mud.hat_fit Mud.bump_pdf Mud.no_discrepancy 0 2 [0; 1] [(0, 1)] [[1 # 4]; [1 # 2]; [3 # 4]]
      (mk2d 2 [[1; 2]; [2; 3]; [3; 4]]) (1 # 10) [2; 3] 2
      = Ok (wf, mud_solves, printed) /\
    length mud_solves = 2%nat /\
    forall k p, nth_error mud_solves k = Some p ->
      weights_fed Mud._r mud_solves (S k) = Mud._r p.
Proof.
  eexists _, _, _.
  assert (Hrun :
    sequential_estimator Mud.hat_fit Mud.bump_pdf Mud.no_discrepancy 0 2 [0; 1] [(0, 1)] [[1 # 4]; [1 # 2]; [3 # 4]]
      (mk2d 2 [[1; 2]; [2; 3]; [3; 4]]) (1 # 10) [2; 3] 2 = Ok (_, _, _))
    by (vm_compute; reflexivity).
  split; [exact Hrun|].
  unfold sequential_estimator in Hrun.
  destruct (sequential_cell_feeds_previous_ratio _ _ _ _ _ _ _ _ _ _ _ _ _ _ _ _ _ _ _ _ Hrun)
    as (qoi_it & qoi_true_it & _ & _ & Hlen & _ & Hfed & _).
  split; [exact Hlen | exact Hfed].
Defined.

(** On the estimator the weights are stored in the problem, so the chain can
    be read off the solved problems alone: the first one has uniform weights,
    and each later one has as weights the ratio vector stored by the one
    before it. *)
Lemma estimator_weights_are_previous_ratio
    (fit : list (list Q) -> list Q -> result Mud.mud_error (list Q -> Q))
    (norm_pdf : Mud.gaussian -> Q -> Q)
    (mean_discrepancy : ndarray2 -> list Q -> Q) (eps : Q)
    (num_splits : Z) (ts : list Q) (domain : list (Q * Q))
    (lam : list (list Q)) (qoi : ndarray2) (sd : Q) (qoi_true : list Q) (N : Z)
    (wf : option (list Q)) (mud_solves : list Mud.problem)
    (printed : list (list Q)) :
  sequential_estimator fit norm_pdf mean_discrepancy eps num_splits ts domain
                       lam qoi sd qoi_true N = Ok (wf, mud_solves, printed) ->
  (forall p0, nth_error mud_solves 0 = Some p0 ->
     Mud.weights p0 = repeat 1 (length lam)) /\
  (forall k p p1,
     nth_error mud_solves k = Some p ->
     nth_error mud_solves (S k) = Some p1 ->
     Mud._r p = Some (Mud.weights p1)).
Proof.
  unfold sequential_estimator. intros H.
  apply sequential_cell_ok in H as (qoi_it & qoi_true_it & _ & _ & H).
  apply for_range_feeds_weights in H as (Hlen & _ & _ & _ & _ & Hpass);
    [|reflexivity|reflexivity].
  rewrite length_seq in Hlen. cbn [length Nat.add] in Hlen, Hpass.
  assert (Hat : forall k p, nth_error mud_solves k = Some p ->
            exists q t mud_it res,
              Mud.mud_problem domain lam q sd t (Z.quot N num_splits)
                (weights_fed Mud._r mud_solves k) = Ok mud_it /\
              Mud.estimate fit norm_pdf mean_discrepancy eps mud_it = Ok (res, p)).
  { intros k p Hk.
    assert (Hkl : (k < Z.to_nat num_splits)%nat)
      by (rewrite <- Hlen; apply nth_error_Some; rewrite Hk; discriminate).
    destruct (Hpass k k) as (q & t & mud_it & res & p' & _ & _ & Hm & He & Hp & _).
    { rewrite nth_error_seq. apply Nat.ltb_lt in Hkl. now rewrite Hkl. }
    exists q, t, mud_it, res. split; [exact Hm | congruence]. }
  assert (Hkeep : forall mud_it res p,
            Mud.estimate fit norm_pdf mean_discrepancy eps mud_it = Ok (res, p) ->
            Mud.weights p = Mud.weights mud_it /\ exists r, Mud._r p = Some r).
  { intros mud_it res p He.
    apply MudFacts.estimate_sound in He as [Hs _].
    apply MudFacts.solve_fills in Hs as (vin & vpr & g & r & ->).
    split; [reflexivity | eexists; reflexivity]. }
  split.
  - intros p0 H0. destruct (Hat 0%nat p0 H0) as (q & t & mud_it & res & Hm & He).
    apply Hkeep in He as [-> _].
    apply MudFacts.mud_problem_ok in Hm as (_ & _ & _ & _ & ->). reflexivity.
  - intros k p p1 Hk Hk1.
    destruct (Hat k p Hk) as (_ & _ & mud_it0 & res0 & _ & He0).
    apply Hkeep in He0 as [_ [r Hr]].
    destruct (Hat (S k) p1 Hk1) as (q & t & mud_it & res & Hm & He).
    apply Hkeep in He as [-> _].
    cbn [weights_fed] in Hm. rewrite Hk, Hr in Hm.
    apply MudFacts.mud_problem_ok in Hm as (_ & _ & _ & _ & ->).
    exact Hr.
Qed.

End SequentialFacts.

(** ** More on the data generator *)

Module GeneratorFacts.
Import Np NpFacts Notebook NotebookFacts Shapes.

(** *** Reductions along axis 1 *)

Lemma reduce_axis1_ok (red : Q -> list Q -> Q) (d : domain_arg) (v : list Q) :
  reduce_axis1 red d = Ok v ->
  reducible d /\
  v = map (fun r => match r with [] => 0 | x :: t => red x t end) (domain_rows d).
Proof.
  destruct d as [xs|[|[|x r] rs]]; try discriminate.
  cbn [reduce_axis1 reducible domain_rows].
  destruct (rectangular ((x :: r) :: rs)); [|discriminate].
  intros H. injection H as <-. split; reflexivity.
Qed.

Lemma reduce_axis1_reducible (red : Q -> list Q -> Q) (d : domain_arg) :
  reducible d ->
  reduce_axis1 red d =
  Ok (map (fun r => match r with [] => 0 | x :: t => red x t end) (domain_rows d)).
Proof.
  destruct d as [xs|[|[|x r] rs]]; cbn [reducible]; try contradiction.
  intros H. cbn [reduce_axis1 domain_rows]. rewrite H. reflexivity.
Qed.

Lemma reduce_axis1_fails (red : Q -> list Q -> Q) (d : domain_arg) :
  ~ reducible d ->
  reduce_axis1 red d = Raise AxisError \/ reduce_axis1 red d = Raise ValueError.
Proof.
  destruct d as [xs|[|[|x r] rs]]; cbn [reducible reduce_axis1]; auto.
  destruct (rectangular ((x :: r) :: rs)); [intros H; exfalso; auto | auto].
Qed.

Lemma sub_length (a b : list Q) : length (sub a b) = Nat.min (length a) (length b).
Proof. unfold sub. now rewrite length_map, length_combine. Qed.

(** *** When the sampler returns *)

Lemma uniform_rvs_returns (u : nat -> Q) (loc scale : list Q) (n : Z) :
  length scale = length loc ->
  (is_ok (uniform_rvs u loc scale n) = true <->
   (0 <= n)%Z /\ (length loc = 1%nat \/ length loc = Z.to_nat n)).
Proof.
  intros Hlen. unfold uniform_rvs.
  destruct (n <? 0)%Z eqn:En.
  - apply Z.ltb_lt in En. split; [discriminate | lia].
  - apply Z.ltb_ge in En.
    destruct loc as [|l0 [|l1 loc]]; destruct scale as [|s0 [|s1 scale]];
      cbn [length] in Hlen; try discriminate Hlen.
    + cbn [length]. destruct (Z.to_nat n) eqn:E; cbn; split; try tauto; try lia;
        intros; try discriminate.
    + split; [intros _; split; [exact En | left; reflexivity] | reflexivity].
    + cbn [length]. rewrite <- Hlen.
      destruct (Nat.eqb (S (S (length scale))) (Z.to_nat n)) eqn:E; cbn [andb is_ok].
      * apply Nat.eqb_eq in E. split; [intros _; split; [exact En | right; lia] | reflexivity].
      * apply Nat.eqb_neq in E. split; [discriminate | intros [_ [H|H]]; lia].
Qed.

Lemma uniform_rvs_raises (u : nat -> Q) (loc scale : list Q) (n : Z) :
  is_ok (uniform_rvs u loc scale n) = false ->
  uniform_rvs u loc scale n = Raise ValueError.
Proof.
  unfold uniform_rvs. destruct (n <? 0)%Z; [reflexivity|].
  destruct loc as [|l0 [|l1 loc]]; destruct scale as [|s0 [|s1 scale]];
    try (destruct (_ && _)%bool; [discriminate | reflexivity]); discriminate.
Qed.

Lemma freq_nonzero (f : Q) : ~ f == 0 -> Qeq_bool f 0 = false.
Proof.
  intros Hf. destruct (Qeq_bool f 0) eqn:E; [|reflexivity].
  apply Qeq_bool_iff in E. contradiction.
Qed.

Lemma reduced_length (red : Q -> list Q -> Q) (d : domain_arg) :
  length (map (fun r => match r with [] => 0 | x :: t => red x t end) (domain_rows d))
  = dimension d.
Proof. rewrite length_map. destruct d; reflexivity. Qed.

(** The call, once the reads of [time_range], the inverse of the frequency,
    the grid and the two reductions have gone through: what is left is the
    sampler. *)
Lemma exp_decay_one_past_domain (np_exp : Q -> Q)
    (np_arange : Q -> Q -> Q -> result pyexc (list Q)) (rng : nat -> Q)
    (u_0 t0 t_end : Q) (rest : list Q) (domain : domain_arg) (num_samples : Z)
    (lambda_true : Q) (N : Z) (t_start sampling_freq : Q) (grid : list Q) :
  ~ sampling_freq == 0 ->
  arange np_arange t_start t_end (1 / sampling_freq) = Ok grid ->
  reducible domain ->
  exists mn mx,
    length mn = dimension domain /\ length mx = dimension domain /\
    exp_decay_one np_exp np_arange rng u_0 (t0 :: t_end :: rest) domain num_samples
                  lambda_true N t_start sampling_freq =
    (lambda_samples <- uniform_rvs rng mn (sub mx mn) num_samples ;;
     Ok (slice_to N grid, lambda_samples,
         u_t_lambda np_exp u_0 (slice_to N grid) lambda_samples,
         trajectory np_exp u_0 lambda_true (slice_to N grid))).
Proof.
  intros Hf Hgrid Hd.
  eexists _, _. split; [apply (reduced_length list_min) |].
  split; [apply (reduced_length list_max) |].
  unfold exp_decay_one. cbn [getitem nth_error bind].
  unfold py_inv. rewrite (freq_nonzero _ Hf). cbn [bind].
  rewrite Hgrid. cbn [bind].
  unfold min_axis1, max_axis1. rewrite !reduce_axis1_reducible by exact Hd.
  cbn [bind]. destruct (uniform_rvs _ _ _ _) as [ls|e]; [|reflexivity].
  cbn [bind]. unfold row0. rewrite u_t_lambda_rows. reflexivity.
Qed.

(** X1.  [exp_decay_one] returns only when [time_range] has two entries or
    more, the sampling frequency is not zero, [np.arange] has returned its
    grid, the domain is a nested list of non-empty rows of one length, the
    sample count is not negative, and the domain has one row or as many rows
    as samples are asked for. *)
Theorem exp_decay_one_returns_only_if (np_exp : Q -> Q)
    (np_arange : Q -> Q -> Q -> result pyexc (list Q)) (rng : nat -> Q)
    (u_0 : Q) (time_range : list Q) (domain : domain_arg) (num_samples : Z)
    (lambda_true : Q) (N : Z) (t_start sampling_freq : Q) :
  is_ok (exp_decay_one np_exp np_arange rng u_0 time_range domain num_samples
                       lambda_true N t_start sampling_freq) = true ->
  (2 <= length time_range)%nat /\
  ~ sampling_freq == 0 /\
  (exists t_end grid,
     nth_error time_range 1 = Some t_end /\
     arange np_arange t_start t_end (1 / sampling_freq) = Ok grid) /\
  reducible domain /\
  (0 <= num_samples)%Z /\
  (dimension domain = 1%nat \/ dimension domain = Z.to_nat num_samples).
Proof.
  destruct (exp_decay_one _ _ _ _ _ _ _ _ _ _ _) as [[[[times lam] predicted] tr]|e] eqn:E;
    [intros _ | discriminate].
  apply exp_decay_one_ok in E
    as (t_end & grid & mn & mx & Hend & Hf & Hgrid & _ & Hmn & Hmx & Hlam & _).
  apply reduce_axis1_ok in Hmn as [Hd ->]. apply reduce_axis1_ok in Hmx as [_ ->].
  assert (Hok : is_ok (uniform_rvs rng
             (map (fun r => match r with [] => 0 | x :: t => list_min x t end) (domain_rows domain))
             (sub (map (fun r => match r with [] => 0 | x :: t => list_max x t end) (domain_rows domain))
                  (map (fun r => match r with [] => 0 | x :: t => list_min x t end) (domain_rows domain)))
             num_samples) = true) by (rewrite Hlam; reflexivity).
  apply uniform_rvs_returns in Hok;
    [|rewrite sub_length, !reduced_length; apply Nat.min_id].
  rewrite reduced_length in Hok.
  assert (Hl : (1 < length time_range)%nat)
    by (apply nth_error_Some; rewrite Hend; discriminate).
  split; [lia|]. split; [exact Hf|]. split; [eauto|]. tauto.
Qed.

Lemma exp_decay_one_returns_only_if_witness :
  is_ok (exp_decay_one exp_series exact_grid cycle_rng (3 # 4) [0; 1]
                       (Dom2 [[0; 1]]) 2 (1 # 2) 5 0 2) = true /\
  reducible (Dom2 [[0; 1]]) /\
  (dimension (Dom2 [[0; 1]]) = 1%nat \/ dimension (Dom2 [[0; 1]]) = Z.to_nat 2).
Proof.
  assert (Hrun : is_ok (exp_decay_one exp_series exact_grid cycle_rng (3 # 4) [0; 1]
                          (Dom2 [[0; 1]]) 2 (1 # 2) 5 0 2) = true)
    by (vm_compute; reflexivity).
  split; [exact Hrun|].
  destruct (exp_decay_one_returns_only_if exp_series exact_grid cycle_rng (3 # 4)
              [0; 1] (Dom2 [[0; 1]]) 2 (1 # 2) 5 0 2 Hrun)
    as (_ & _ & _ & Hd & _ & Hdim).
  split; [exact Hd | exact Hdim].
Defined.

(** X2.  Which exception a failing call raises, in the order the body meets
    them: [IndexError] when [time_range] has fewer than two entries; else
    [ZeroDivisionError] for a zero frequency; else whatever [np.arange]
    raises when it refuses the grid; else, the grid returned, [AxisError] for
    a flat domain such as the default [[0, 1]], and one of [AxisError] and
    [ValueError] for any other domain that cannot be reduced; else
    [ValueError] for a negative sample count or a row count that is neither
    one nor the sample count. *)
Theorem exp_decay_one_raises (np_exp : Q -> Q)
    (np_arange : Q -> Q -> Q -> result pyexc (list Q)) (rng : nat -> Q)
    (u_0 : Q) (time_range : list Q) (domain : domain_arg) (num_samples : Z)
    (lambda_true : Q) (N : Z) (t_start sampling_freq : Q) :
  let call := exp_decay_one np_exp np_arange rng u_0 time_range domain num_samples
                            lambda_true N t_start sampling_freq in
  ((length time_range < 2)%nat -> call = Raise IndexError) /\
  ((2 <= length time_range)%nat -> sampling_freq == 0 ->
   call = Raise ZeroDivisionError) /\
  (forall t_end, nth_error time_range 1 = Some t_end -> ~ sampling_freq == 0 ->
   (forall e, arange np_arange t_start t_end (1 / sampling_freq) = Raise e ->
      call = Raise e) /\
   (forall grid, arange np_arange t_start t_end (1 / sampling_freq) = Ok grid ->
      (forall xs, domain = Dom1 xs -> call = Raise AxisError) /\
      (~ reducible domain -> call = Raise AxisError \/ call = Raise ValueError) /\
      (reducible domain ->
       (num_samples < 0)%Z \/
       (dimension domain <> 1%nat /\ dimension domain <> Z.to_nat num_samples) ->
       call = Raise ValueError))).
Proof.
  intros call. subst call. split; [|split].
  - intros Hl. unfold exp_decay_one.
    destruct time_range as [|t0 [|t_end rest]]; cbn [length] in Hl; try lia; reflexivity.
  - intros Hl Hf.
    destruct time_range as [|t0 [|t_end rest]]; cbn [length] in Hl; try lia.
    unfold exp_decay_one. cbn [getitem nth_error bind]. unfold py_inv.
    apply Qeq_bool_iff in Hf. rewrite Hf. reflexivity.
  - intros t_end Hend Hf.
    destruct time_range as [|t0 [|t1 rest]]; try discriminate Hend.
    cbn [nth_error] in Hend. injection Hend as ->.
    split.
    + intros e He. unfold exp_decay_one. cbn [getitem nth_error bind].
      unfold py_inv. rewrite (freq_nonzero _ Hf). cbn [bind].
      rewrite He. reflexivity.
    + intros grid Hgrid. split; [|split].
      * intros xs ->. unfold exp_decay_one. cbn [getitem nth_error bind].
        unfold py_inv. rewrite (freq_nonzero _ Hf). cbn [bind].
        rewrite Hgrid. reflexivity.
      * intros Hd. unfold exp_decay_one. cbn [getitem nth_error bind].
        unfold py_inv. rewrite (freq_nonzero _ Hf). cbn [bind].
        rewrite Hgrid. cbn [bind]. unfold min_axis1.
        destruct (reduce_axis1_fails list_min domain Hd) as [-> | ->]; auto.
      * intros Hd Hbad.
        destruct (exp_decay_one_past_domain np_exp np_arange rng u_0 t0 t_end rest
                    domain num_samples lambda_true N t_start sampling_freq grid
                    Hf Hgrid Hd)
          as (mn & mx & Hmn & Hmx & ->).
        rewrite (uniform_rvs_raises rng mn (sub mx mn) num_samples); [reflexivity|].
        destruct (is_ok (uniform_rvs rng mn (sub mx mn) num_samples)) eqn:E;
          [|reflexivity].
        apply uniform_rvs_returns in E; [|rewrite sub_length; lia].
        rewrite Hmn in E. lia.
Qed.

Lemma exp_decay_one_raises_witness :
  exp_decay_one exp_series exact_grid cycle_rng (3 # 4) [0] (Dom2 [[0; 1]]) 2 (1 # 2) 5 0 2
    = Raise IndexError /\
  exp_decay_one exp_series exact_grid cycle_rng (3 # 4) [0; 3] (Dom2 [[0; 1]]) 2 (1 # 2) 5 0 0
    = Raise ZeroDivisionError /\
  exp_decay_one exp_series refused_grid cycle_rng (3 # 4) [0; 3] (Dom1 [0; 1]) 2 (1 # 2) 5 0 2
    = Raise ValueError /\
  exp_decay_one exp_series exact_grid cycle_rng (3 # 4) [0; 3] (Dom1 [0; 1]) 10000 (1 # 2) 20 1 100
    = Raise AxisError /\
  exp_decay_one exp_series exact_grid cycle_rng (3 # 4) [0; 3] (Dom2 [[0; 1]]) (-1) (1 # 2) 5 0 2
    = Raise ValueError.
Proof.
  split; [|split; [|split; [|split]]].
  - apply (proj1 (exp_decay_one_raises exp_series exact_grid cycle_rng (3 # 4) [0]
                    (Dom2 [[0; 1]]) 2 (1 # 2) 5 0 2)). cbn. lia.
  - apply (proj1 (proj2 (exp_decay_one_raises exp_series exact_grid cycle_rng (3 # 4)
                           [0; 3] (Dom2 [[0; 1]]) 2 (1 # 2) 5 0 0)));
      [cbn; lia | reflexivity].
  - apply (proj1 (proj2 (proj2 (exp_decay_one_raises exp_series refused_grid cycle_rng
                     (3 # 4) [0; 3] (Dom1 [0; 1]) 2 (1 # 2) 5 0 2))
                   3 eq_refl ltac:(discriminate)) ValueError).
    reflexivity.
  - destruct (proj2 (proj2 (proj2 (exp_decay_one_raises exp_series exact_grid cycle_rng
                     (3 # 4) [0; 3] (Dom1 [0; 1]) 10000 (1 # 2) 20 1 100))
                   3 eq_refl ltac:(discriminate)) _ eq_refl) as (H & _).
    exact (H [0; 1] eq_refl).
  - destruct (proj2 (proj2 (proj2 (exp_decay_one_raises exp_series exact_grid cycle_rng
                     (3 # 4) [0; 3] (Dom2 [[0; 1]]) (-1) (1 # 2) 5 0 2))
                   3 eq_refl ltac:(discriminate)) _ eq_refl) as (_ & _ & H).
    apply H; [reflexivity | left; lia].
Defined.

(** *** The measurement times *)

(** X4.  With a negative [N] the slice [[0:N]] keeps all but the last [-N]
    elements of the grid that [np.arange] returned, none when the grid has
    no more than [-N]: that is the number of returned times, which is the
    column count of the prediction matrix and the length of the observed
    vector. *)
Theorem exp_decay_one_negative_N (np_exp : Q -> Q)
    (np_arange : Q -> Q -> Q -> result pyexc (list Q)) (rng : nat -> Q)
    (u_0 : Q) (time_range : list Q) (domain : domain_arg) (num_samples : Z)
    (lambda_true : Q) (N : Z) (t_start sampling_freq : Q)
    (times lam : list Q) (predicted : ndarray2) (true : list Q) :
  (N < 0)%Z ->
  exp_decay_one np_exp np_arange rng u_0 time_range domain num_samples lambda_true N
                t_start sampling_freq = Ok (times, lam, predicted, true) ->
  exists t_end grid,
    nth_error time_range 1 = Some t_end /\
    arange np_arange t_start t_end (1 / sampling_freq) = Ok grid /\
    times = firstn (Z.to_nat (Z.of_nat (length grid) + N)) grid /\
    length times = Z.to_nat (Z.of_nat (length grid) + N) /\
    shape1 predicted = length times /\
    length true = length times.
Proof.
  intros HN H.
  apply exp_decay_one_ok in H
    as (t_end & grid & mn & mx & Hend & _ & Hgrid & -> & _ & _ & _ & -> & ->).
  exists t_end, grid.
  split; [exact Hend|]. split; [exact Hgrid|].
  assert (Hslice : slice_to N grid
                   = firstn (Z.to_nat (Z.of_nat (length grid) + N)) grid).
  { unfold slice_to. destruct (0 <=? N)%Z eqn:E; [apply Z.leb_le in E; lia | reflexivity]. }
  split; [exact Hslice|].
  split; [rewrite Hslice, length_firstn; lia|].
  split; [apply u_t_lambda_shape1|].
  unfold trajectory. apply length_map.
Qed.

Lemma exp_decay_one_negative_N_witness :
  exists times lam predicted true,
    ((-1 < 0)%Z /\
     exp_decay_one exp_series exact_grid cycle_rng (3 # 4) [0; 1] (Dom2 [[0; 1]]) 2 (1 # 2)
                   (-1) 0 2 = Ok (times, lam, predicted, true)) /\
    length times = 1%nat /\ shape1 predicted = 1%nat /\ length true = 1%nat.
Proof.
  eexists _, _, _, _.
  assert (Hrun :
    exp_decay_one exp_series exact_grid cycle_rng (3 # 4) [0; 1] (Dom2 [[0; 1]]) 2 (1 # 2)
                  (-1) 0 2 = Ok (_, _, _, _)) by (vm_compute; reflexivity).
  split; [split; [lia | exact Hrun] |].
  destruct (exp_decay_one_negative_N exp_series exact_grid cycle_rng (3 # 4) [0; 1]
              (Dom2 [[0; 1]]) 2 (1 # 2) (-1) 0 2 _ _ _ _ ltac:(lia) Hrun)
    as (t_end & grid & _ & _ & _ & _ & H1 & H2).
  split; [reflexivity | split; [exact H1 | exact H2]].
Defined.

(** *** The prediction matrix *)

(** X5.  The prediction matrix of a returning call is a proper array (every
    row has as many entries as there are columns), and when the true
    parameter occurs among the samples, the row of that sample is exactly the
    observed vector. *)
Theorem exp_decay_one_row_of_true_parameter (np_exp : Q -> Q)
    (np_arange : Q -> Q -> Q -> result pyexc (list Q)) (rng : nat -> Q)
    (u_0 : Q) (time_range : list Q) (domain : domain_arg) (num_samples : Z)
    (lambda_true : Q) (N : Z) (t_start sampling_freq : Q)
    (times lam : list Q) (predicted : ndarray2) (true : list Q) :
  exp_decay_one np_exp np_arange rng u_0 time_range domain num_samples lambda_true N
                t_start sampling_freq = Ok (times, lam, predicted, true) ->
  well_shaped predicted /\
  forall i, nth_error lam i = Some lambda_true ->
    nth_error (rows predicted) i = Some true.
Proof.
  intros H.
  apply exp_decay_one_ok in H
    as (t_end & grid & mn & mx & _ & _ & _ & -> & _ & _ & _ & -> & ->).
  split.
  - unfold well_shaped. rewrite u_t_lambda_rows, u_t_lambda_shape1.
    apply Forall_forall. intros r Hr. apply in_map_iff in Hr as (l & <- & _).
    unfold trajectory. apply length_map.
  - intros i Hi. rewrite u_t_lambda_rows, nth_error_map, Hi. reflexivity.
Qed.

Lemma exp_decay_one_row_of_true_parameter_witness :
  exists times lam predicted true,
    exp_decay_one exp_series exact_grid cycle_rng (3 # 4) [0; 1] (Dom2 [[0; 1]]) 3 (2 # 4)
                  5 0 2 = Ok (times, lam, predicted, true) /\
    nth_error lam 2 = Some (2 # 4) /\
    nth_error (rows predicted) 2 = Some true.
Proof.
  eexists _, _, _, _.
  assert (Hrun :
    exp_decay_one exp_series exact_grid cycle_rng (3 # 4) [0; 1] (Dom2 [[0; 1]]) 3 (2 # 4)
                  5 0 2 = Ok (_, _, _, _)) by (vm_compute; reflexivity).
  split; [exact Hrun|]. split; [reflexivity|].
  exact (proj2 (exp_decay_one_row_of_true_parameter exp_series exact_grid cycle_rng (3 # 4)
                  [0; 1] (Dom2 [[0; 1]]) 3 (2 # 4) 5 0 2 _ _ _ _ Hrun) 2%nat eq_refl).
Defined.

(** *** The samples *)












(** *** The order of the entries of a row *)









(** *** The variates drawn *)

Lemma uniform_rvs_ext (u u' : nat -> Q) (loc scale : list Q) (n : Z) :
  (forall i, (i < Z.to_nat n)%nat -> u i = u' i) ->
  uniform_rvs u loc scale n = uniform_rvs u' loc scale n.
Proof.
  intros Hu. unfold uniform_rvs. destruct (n <? 0)%Z; [reflexivity|].
  assert (Hgen :
    map (fun p => u (fst p) * snd (snd p) + fst (snd p))
        (combine (seq 0 (Z.to_nat n)) (combine loc scale)) =
    map (fun p => u' (fst p) * snd (snd p) + fst (snd p))
        (combine (seq 0 (Z.to_nat n)) (combine loc scale))).
  { apply map_ext_in. intros [i p] Hp. apply in_combine_l, in_seq in Hp.
    cbn [fst snd]. rewrite Hu by lia. reflexivity. }
  assert (Hone : forall s l,
    map (fun i => u i * s + l) (seq 0 (Z.to_nat n)) =
    map (fun i => u' i * s + l) (seq 0 (Z.to_nat n))).
  { intros s l. apply map_ext_in. intros i Hi. apply in_seq in Hi.
    rewrite Hu by lia. reflexivity. }
  destruct loc as [|l0 [|l1 loc]]; destruct scale as [|s0 [|s1 scale]];
    try (rewrite Hgen; reflexivity).
  rewrite Hone. reflexivity.
Qed.

(** X12.  A call draws the variates number [0] to [num_samples - 1] and no
    other: two generators that agree on these give the same result, failures
    included. *)
Theorem exp_decay_one_draws_num_samples (np_exp : Q -> Q)
    (np_arange : Q -> Q -> Q -> result pyexc (list Q)) (rng rng' : nat -> Q)
    (u_0 : Q) (time_range : list Q) (domain : domain_arg) (num_samples : Z)
    (lambda_true : Q) (N : Z) (t_start sampling_freq : Q) :
  (forall i, (i < Z.to_nat num_samples)%nat -> rng i = rng' i) ->
  exp_decay_one np_exp np_arange rng u_0 time_range domain num_samples lambda_true N
                t_start sampling_freq =
  exp_decay_one np_exp np_arange rng' u_0 time_range domain num_samples lambda_true N
                t_start sampling_freq.
Proof.
  intros Hu. unfold exp_decay_one.
  destruct (getitem time_range 0) as [t0|]; [|reflexivity]. cbn [bind].
  destruct (getitem time_range 1) as [t_end|]; [|reflexivity]. cbn [bind].
  destruct (py_inv sampling_freq) as [step|]; [|reflexivity]. cbn [bind].
  destruct (arange np_arange t_start t_end step) as [grid|]; [|reflexivity]. cbn [bind].
  destruct (min_axis1 domain) as [mn|]; [|reflexivity]. cbn [bind].
  destruct (max_axis1 domain) as [mx|]; [|reflexivity]. cbn [bind].
  rewrite (uniform_rvs_ext rng rng' mn (sub mx mn) num_samples Hu). reflexivity.
Qed.

Lemma exp_decay_one_draws_num_samples_witness :
  (forall i, (i < Z.to_nat 2)%nat ->
     cycle_rng i = (fun j => if (j <? 2)%nat then cycle_rng j else 7) i) /\
  exp_decay_one exp_series exact_grid cycle_rng (3 # 4) [0; 1] (Dom2 [[0; 1]]) 2 (1 # 2)
                5 0 2 =
  exp_decay_one exp_series exact_grid (fun j => if (j <? 2)%nat then cycle_rng j else 7)
                (3 # 4) [0; 1] (Dom2 [[0; 1]]) 2 (1 # 2) 5 0 2.
Proof.
  assert (Hu : forall i, (i < Z.to_nat 2)%nat ->
            cycle_rng i = (fun j => if (j <? 2)%nat then cycle_rng j else 7) i).
  { intros i Hi. destruct i as [|[|i]]; [reflexivity | reflexivity |].
    exfalso. cbn in Hi. lia. }
  split; [exact Hu|].
  exact (exp_decay_one_draws_num_samples exp_series exact_grid cycle_rng _ (3 # 4) [0; 1]
           (Dom2 [[0; 1]]) 2 (1 # 2) 5 0 2 Hu).
Defined.

(** *** A window with no instant *)

(** X13.  With a positive frequency and a start at or after
    [time_range[1]], a returning call raises nothing and returns no
    measurement at all: no time, an empty observed vector, and a prediction
    matrix with no column, whatever [N] is. *)
Theorem exp_decay_one_start_after_end (np_exp : Q -> Q)
    (np_arange : Q -> Q -> Q -> result pyexc (list Q)) (rng : nat -> Q)
    (u_0 : Q) (time_range : list Q) (domain : domain_arg) (num_samples : Z)
    (lambda_true : Q) (N : Z) (t_start sampling_freq t_end : Q)
    (times lam : list Q) (predicted : ndarray2) (true : list Q) :
  0 < sampling_freq ->
  exp_decay_one np_exp np_arange rng u_0 time_range domain num_samples lambda_true N
                t_start sampling_freq = Ok (times, lam, predicted, true) ->
  nth_error time_range 1 = Some t_end ->
  t_end <= t_start ->
  times = [] /\ true = [] /\ shape1 predicted = 0%nat /\
  Forall (fun r => r = []) (rows predicted).
Proof.
  intros Hf H Hend Hle.
  apply exp_decay_one_ok in H
    as (t_end' & grid & mn & mx & Hend' & _ & Hgrid & -> & _ & _ & _ & -> & ->).
  assert (t_end' = t_end) by congruence. subst t_end'.
  assert (Hnone : grid = []).
  { apply (arange_not_positive _ _ _ _ _ Hgrid).
    assert (Hs : 0 < 1 / sampling_freq).
    { unfold Qdiv. rewrite Qmult_1_l. now apply Qinv_lt_0_compat. }
    assert (Hr : (t_end - t_start) / (1 / sampling_freq)
                 == (t_end - t_start) * sampling_freq).
    { field. intros Hz. rewrite Hz in Hf. discriminate Hf. }
    rewrite Hr.
    assert (Hd : t_end - t_start <= 0) by lra.
    assert (Hm : (t_end - t_start) * sampling_freq <= 0 * sampling_freq).
    { apply Qmult_le_compat_r; [exact Hd | now apply Qlt_le_weak]. }
    lra. }
  subst grid.
  assert (Hs : slice_to N (@nil Q) = []).
  { unfold slice_to. destruct (0 <=? N)%Z; apply firstn_nil. }
  rewrite Hs. split; [reflexivity|]. split; [reflexivity|].
  split; [reflexivity|].
  rewrite u_t_lambda_rows. apply Forall_forall. intros r Hr.
  apply in_map_iff in Hr as (l & <- & _). reflexivity.
Qed.

Lemma exp_decay_one_start_after_end_witness :
  exists times lam predicted true,
    (0 < 100 /\
     exp_decay_one exp_series exact_grid cycle_rng (3 # 4) [0; 3] (Dom2 [[0; 1]]) 2 (1 # 2)
                   20 3 100 = Ok (times, lam, predicted, true) /\
     nth_error [0; 3] 1 = Some 3 /\ 3 <= 3) /\
    times = [] /\ true = [].
Proof.
  eexists _, _, _, _.
  assert (Hrun :
    exp_decay_one exp_series exact_grid cycle_rng (3 # 4) [0; 3] (Dom2 [[0; 1]]) 2 (1 # 2)
                  20 3 100 = Ok (_, _, _, _)) by (vm_compute; reflexivity).
  split; [split; [reflexivity | split; [exact Hrun | split; [reflexivity | discriminate]]] |].
  destruct (exp_decay_one_start_after_end exp_series exact_grid cycle_rng (3 # 4) [0; 3]
              (Dom2 [[0; 1]]) 2 (1 # 2) 20 3 100 3 _ _ _ _
              ltac:(reflexivity) Hrun eq_refl ltac:(discriminate))
    as (H1 & H2 & _).
  split; [exact H1 | exact H2].
Defined.

End GeneratorFacts.

(** ** The batches of the sequential cell *)

Module BatchFacts.
Import Np NpFacts Notebook NotebookFacts Shapes.

(** *** Equal sections *)

Lemma split_sizes_ok (len : nat) (n : Z) (sz cnt : nat) :
  split_sizes len n = Ok (sz, cnt) ->
  (0 < n)%Z /\ cnt = Z.to_nat n /\ (sz * cnt)%nat = len /\
  (Z.of_nat sz * n)%Z = Z.of_nat len.
Proof.
  unfold split_sizes.
  destruct (n =? 0)%Z eqn:E0; [discriminate|]. apply Z.eqb_neq in E0.
  destruct (Z.of_nat len mod n =? 0)%Z eqn:Em; [|discriminate]. apply Z.eqb_eq in Em.
  destruct (n <? 0)%Z eqn:En; [discriminate|]. apply Z.ltb_ge in En.
  cbn [negb]. intros H. injection H as <- <-.
  assert (Hpos : (0 < n)%Z) by lia.
  assert (Hdiv : (Z.of_nat len = n * (Z.of_nat len / n))%Z)
    by (apply Z.div_exact; [lia | exact Em]).
  assert (Hq : (0 <= Z.of_nat len / n)%Z) by (apply Z.div_pos; lia).
  repeat split; try assumption; nia.
Qed.

Lemma split_sizes_returns (len : nat) (n : Z) :
  is_ok (split_sizes len n) = true <-> (0 < n)%Z /\ (Z.of_nat len mod n = 0)%Z.
Proof.
  unfold split_sizes.
  destruct (n =? 0)%Z eqn:E0.
  { apply Z.eqb_eq in E0. split; [discriminate | lia]. }
  apply Z.eqb_neq in E0.
  destruct (Z.of_nat len mod n =? 0)%Z eqn:Em; cbn [negb].
  - apply Z.eqb_eq in Em.
    destruct (n <? 0)%Z eqn:En; cbn [is_ok].
    + apply Z.ltb_lt in En. split; [discriminate | lia].
    + apply Z.ltb_ge in En. split; [intros _; lia | reflexivity].
  - apply Z.eqb_neq in Em. cbn [is_ok]. split; [discriminate | lia].
Qed.

Lemma split_sizes_raises (len : nat) (n : Z) :
  (n = 0%Z -> split_sizes len n = Raise ZeroDivisionError) /\
  (n <> 0%Z -> is_ok (split_sizes len n) = false ->
   split_sizes len n = Raise ValueError).
Proof.
  unfold split_sizes. split.
  - intros ->. reflexivity.
  - intros Hn. apply Z.eqb_neq in Hn. rewrite Hn.
    destruct (negb _); [reflexivity|]. destruct (n <? 0)%Z; [reflexivity | discriminate].
Qed.

Lemma firstn_then_firstn_skipn {A} (a b : nat) (l : list A) :
  firstn a l ++ firstn b (skipn a l) = firstn (a + b) l.
Proof.
  revert l. induction a as [|a IH]; intros l; [reflexivity|].
  destruct l as [|x l]; [now rewrite !firstn_nil|].
  cbn [firstn skipn Nat.add app]. now rewrite IH.
Qed.

Lemma concat_sections_from {A} (sz : nat) (l : list A) (cnt a : nat) :
  concat (map (section_of sz l) (seq a cnt)) = firstn (sz * cnt) (skipn (a * sz) l).
Proof.
  revert a. induction cnt as [|cnt IH]; intros a.
  - rewrite Nat.mul_0_r. reflexivity.
  - cbn [seq map concat]. rewrite IH. unfold section_of.
    replace (S a * sz)%nat with (sz + a * sz)%nat by lia.
    rewrite <- skipn_skipn.
    replace (sz * S cnt)%nat with (sz + sz * cnt)%nat by lia.
    apply firstn_then_firstn_skipn.
Qed.

Lemma concat_sections {A} (sz cnt : nat) (l : list A) :
  (sz * cnt)%nat = length l ->
  concat (map (section_of sz l) (seq 0 cnt)) = l.
Proof.
  intros H. rewrite concat_sections_from. cbn [Nat.mul skipn].
  apply firstn_all2. lia.
Qed.

Lemma section_of_length {A} (sz : nat) (l : list A) (i cnt : nat) :
  (sz * cnt)%nat = length l -> (i < cnt)%nat -> length (section_of sz l i) = sz.
Proof.
  intros H Hi. unfold section_of. rewrite length_firstn, length_skipn. nia.
Qed.

Lemma section_of_map {A B} (f : A -> B) (sz : nat) (l : list A) (i : nat) :
  section_of sz (map f l) i = map f (section_of sz l i).
Proof. unfold section_of. now rewrite skipn_map, firstn_map. Qed.

Lemma split_ok {A} (l : list A) (n : Z) (parts : list (list A)) :
  split l n = Ok parts ->
  exists sz,
    (0 < n)%Z /\ (sz * Z.to_nat n)%nat = length l /\
    parts = map (section_of sz l) (seq 0 (Z.to_nat n)).
Proof.
  unfold split. intros H. apply bind_ok in H as ([sz cnt] & Hs & H).
  apply split_sizes_ok in Hs as (Hn & -> & Hlen & _).
  injection H as <-. exists sz. auto.
Qed.

Lemma split_axis1_ok (m : ndarray2) (n : Z) (parts : list ndarray2) :
  split_axis1 m n = Ok parts ->
  exists sz,
    (0 < n)%Z /\ (sz * Z.to_nat n)%nat = shape1 m /\
    parts = map (fun i => mk2d sz (map (fun r => section_of sz r i) (rows m)))
                (seq 0 (Z.to_nat n)).
Proof.
  unfold split_axis1. intros H. apply bind_ok in H as ([sz cnt] & Hs & H).
  apply split_sizes_ok in Hs as (Hn & -> & Hlen & _).
  injection H as <-. exists sz. auto.
Qed.

Lemma split_returns {A} (l : list A) (n : Z) :
  is_ok (split l n) = is_ok (split_sizes (length l) n).
Proof. unfold split. destruct (split_sizes (length l) n); reflexivity. Qed.

Lemma split_axis1_returns (m : ndarray2) (n : Z) :
  is_ok (split_axis1 m n) = is_ok (split_sizes (shape1 m) n).
Proof. unfold split_axis1. destruct (split_sizes (shape1 m) n); reflexivity. Qed.

Lemma split_raises {A} (l : list A) (n : Z) (e : pyexc) :
  split l n = Raise e -> split_sizes (length l) n = Raise e.
Proof. unfold split. destruct (split_sizes (length l) n); [discriminate | simpl; intros H; injection H as ->; reflexivity]. Qed.

Lemma split_axis1_raises (m : ndarray2) (n : Z) (e : pyexc) :
  split_axis1 m n = Raise e -> split_sizes (shape1 m) n = Raise e.
Proof.
  unfold split_axis1. destruct (split_sizes (shape1 m) n); [discriminate | simpl; intros H; injection H as ->; reflexivity].
Qed.

Lemma split_sizes_exception (len : nat) (n : Z) (e : pyexc) :
  split_sizes len n = Raise e ->
  (e = ZeroDivisionError /\ n = 0%Z) \/
  (e = ValueError /\ n <> 0%Z /\ ~ ((0 < n)%Z /\ (Z.of_nat len mod n = 0)%Z)).
Proof.
  intros H. destruct (Z.eq_dec n 0) as [Hn|Hn].
  - left. rewrite (proj1 (split_sizes_raises len n) Hn) in H. split; congruence.
  - right.
    assert (Hok : is_ok (split_sizes len n) = false) by (rewrite H; reflexivity).
    rewrite (proj2 (split_sizes_raises len n) Hn Hok) in H.
    split; [congruence|]. split; [exact Hn|].
    intros Hc. apply split_sizes_returns in Hc. congruence.
Qed.

Section Cell.

Variables Domain Lam Problem Est W E : Type.
Variable mud_problem :
  Domain -> Lam -> ndarray2 -> Q -> list Q -> Z -> option W -> result E Problem.
Variable estimate : Problem -> result E (Est * Problem).
Variable _r : Problem -> option W.

Local Notation "'cell'" := (sequential_cell mud_problem estimate _r).
Local Notation "'body'" := (loop_body mud_problem estimate _r).

(** X7.  A cell that runs through has cut the data into [num_splits]
    batches that lose and repeat nothing: the batches of the observed vector,
    put end to end, are the observed vector, and for a proper prediction
    matrix the batches of each row, put end to end, are that row; every batch
    keeps all the rows and has a [num_splits]-th of the columns. *)
Theorem sequential_cell_batches_partition (num_splits : Z) (ts : list Q)
    (domain : Domain) (lam : Lam) (qoi : ndarray2) (sd : Q) (qoi_true : list Q)
    (N : Z) (st : loop_state Problem Est W) :
  cell num_splits ts domain lam qoi sd qoi_true N = Ok st ->
  well_shaped qoi ->
  exists qoi_it qoi_true_it,
    split_axis1 qoi num_splits = Ok qoi_it /\
    split qoi_true num_splits = Ok qoi_true_it /\
    length qoi_it = Z.to_nat num_splits /\
    length qoi_true_it = Z.to_nat num_splits /\
    concat qoi_true_it = qoi_true /\
    (forall i r, nth_error (rows qoi) i = Some r ->
       concat (map (fun b => nth i (rows b) []) qoi_it) = r) /\
    (forall b, In b qoi_it ->
       shape0 b = shape0 qoi /\ well_shaped b /\
       (shape1 b * Z.to_nat num_splits)%nat = shape1 qoi) /\
    (forall t, In t qoi_true_it ->
       (length t * Z.to_nat num_splits)%nat = length qoi_true).
Proof.
  intros H Hwf.
  apply SequentialFacts.sequential_cell_ok in H as (qoi_it & qoi_true_it & Hq & Ht & _).
  exists qoi_it, qoi_true_it. split; [exact Hq|]. split; [exact Ht|].
  apply split_axis1_ok in Hq as (szq & Hn & Hszq & ->).
  apply split_ok in Ht as (szt & _ & Hszt & ->).
  rewrite !length_map, !length_seq.
  split; [reflexivity|]. split; [reflexivity|].
  split; [now apply concat_sections|].
  split; [|split].
  - intros i r Hr. rewrite map_map. cbn [rows].
    rewrite (map_ext _ (section_of szq r)).
    + apply concat_sections. rewrite Hszq. symmetry.
      unfold well_shaped in Hwf. rewrite Forall_forall in Hwf.
      apply Hwf. eapply nth_error_In, Hr.
    + intros k. apply nth_error_nth. rewrite nth_error_map, Hr. reflexivity.
  - intros b Hb. apply in_map_iff in Hb as (k & <- & Hk). apply in_seq in Hk.
    unfold shape0, well_shaped. cbn [rows shape1]. rewrite length_map.
    split; [reflexivity|]. split; [|exact Hszq].
    apply Forall_forall. intros r Hr. apply in_map_iff in Hr as (r0 & <- & Hr0).
    apply section_of_length with (cnt := Z.to_nat num_splits); [|lia].
    rewrite Hszq. symmetry.
    unfold well_shaped in Hwf. rewrite Forall_forall in Hwf. now apply Hwf.
  - intros t Hin. apply in_map_iff in Hin as (k & <- & Hk). apply in_seq in Hk.
    rewrite (section_of_length szt qoi_true k (Z.to_nat num_splits)); [exact Hszt | exact Hszt | lia].
Qed.

(** The exception of a cell whose data cannot be cut into equal batches. *)
Lemma sequential_cell_split_errors (num_splits : Z) (ts : list Q)
    (domain : Domain) (lam : Lam) (qoi : ndarray2) (sd : Q) (qoi_true : list Q)
    (N : Z) :
  (num_splits = 0%Z ->
   cell num_splits ts domain lam qoi sd qoi_true N = Raise (inl ZeroDivisionError)) /\
  (num_splits <> 0%Z ->
   ~ ((0 < num_splits)%Z /\
      (Z.of_nat (length ts) mod num_splits = 0)%Z /\
      (Z.of_nat (shape1 qoi) mod num_splits = 0)%Z /\
      (Z.of_nat (length qoi_true) mod num_splits = 0)%Z) ->
   cell num_splits ts domain lam qoi sd qoi_true N = Raise (inl ValueError)).
Proof.
  split.
  - intros ->. reflexivity.
  - intros Hn Hbad. unfold sequential_cell.
    assert (Hcase : forall len, is_ok (split_sizes len num_splits) = false ->
                      split_sizes len num_splits = Raise ValueError)
      by (intros len; apply (proj2 (split_sizes_raises len num_splits) Hn)).
    unfold split at 1.
    destruct (is_ok (split_sizes (length ts) num_splits)) eqn:E1;
      [|rewrite (Hcase _ E1); reflexivity].
    pose proof (proj1 (split_sizes_returns _ _) E1) as [Hp H1].
    destruct (split_sizes (length ts) num_splits) as [sz1|]; [|discriminate].
    cbn [bind np_call]. unfold split_axis1.
    destruct (is_ok (split_sizes (shape1 qoi) num_splits)) eqn:E2;
      [|rewrite (Hcase _ E2); reflexivity].
    pose proof (proj1 (split_sizes_returns _ _) E2) as [_ H2].
    destruct (split_sizes (shape1 qoi) num_splits) as [sz2|]; [|discriminate].
    cbn [bind np_call]. unfold split.
    destruct (is_ok (split_sizes (length qoi_true) num_splits)) eqn:E3;
      [|rewrite (Hcase _ E3); reflexivity].
    pose proof (proj1 (split_sizes_returns _ _) E3) as [_ H3].
    exfalso. apply Hbad. auto.
Qed.

(** Where a failing loop failed: some passes ran through, the next one
    raised. *)
Lemma for_range_raises
    (f : loop_state Problem Est W -> nat -> result (pyexc + E) (loop_state Problem Est W))
    (idx : list nat) (st : loop_state Problem Est W) (err : pyexc + E) :
  for_range f st idx = Raise err ->
  exists pre i post st',
    idx = pre ++ i :: post /\
    for_range f st pre = Ok st' /\
    f st' i = Raise err.
Proof.
  revert st. induction idx as [|i rest IH]; intros st H; [discriminate|].
  cbn [for_range] in H. destruct (f st i) as [st1|e] eqn:Ef; cbn [bind] in H.
  - destruct (IH st1 H) as (pre & j & post & st' & -> & Hpre & Hj).
    exists (i :: pre), j, post, st'. split; [reflexivity|]. split; [|exact Hj].
    cbn [for_range]. rewrite Ef. exact Hpre.
  - injection H as <-. exists [], i, rest, st. auto.
Qed.

Lemma seq_prefix (n : nat) (pre post : list nat) (i : nat) :
  seq 0 n = pre ++ i :: post ->
  pre = seq 0 (length pre) /\ i = length pre /\ (length pre < n)%nat.
Proof.
  intros H.
  assert (Hlen : (length pre < n)%nat).
  { apply (f_equal (@length nat)) in H.
    rewrite length_seq, length_app in H. cbn [length] in H. lia. }
  split; [|split; [|exact Hlen]].
  - apply nth_error_ext. intros k. rewrite nth_error_seq.
    destruct (k <? length pre)%nat eqn:Ek.
    + apply Nat.ltb_lt in Ek.
      rewrite <- (nth_error_app1 pre (i :: post)) by exact Ek.
      rewrite <- H, nth_error_seq.
      replace (k <? n)%nat with true by (symmetry; apply Nat.ltb_lt; lia).
      reflexivity.
    + apply Nat.ltb_ge in Ek. now apply nth_error_None.
  - apply (f_equal (fun l => nth (length pre) l 0%nat)) in H.
    rewrite seq_nth in H by exact Hlen.
    rewrite app_nth2, Nat.sub_diag in H by lia. cbn in H. lia.
Qed.

(** What a raising pass raised: an [IndexError] for a batch that is not
    there, or the exception of the constructor or of [estimate()]. *)
Lemma loop_body_raises (domain : Domain) (lam : Lam) (qoi_it : list ndarray2)
    (sd : Q) (qoi_true_it : list (list Q)) (num_obs : Z)
    (w : option W) (solves : list Problem) (printed : list Est) (i : nat)
    (err : pyexc + E) :
  body domain lam qoi_it sd qoi_true_it num_obs (w, solves, printed) i = Raise err ->
  (err = inl IndexError /\
   (nth_error qoi_it i = None \/ nth_error qoi_true_it i = None)) \/
  (exists e q t,
     err = inr e /\
     nth_error qoi_it i = Some q /\ nth_error qoi_true_it i = Some t /\
     (mud_problem domain lam q sd t num_obs w = Raise e \/
      exists mud_it,
        mud_problem domain lam q sd t num_obs w = Ok mud_it /\
        estimate mud_it = Raise e)).
Proof.
  unfold loop_body, getitem.
  destruct (nth_error qoi_it i) as [q|]; cbn [np_call bind];
    [|intros H; injection H as <-; auto].
  destruct (nth_error qoi_true_it i) as [t|]; cbn [np_call bind];
    [|intros H; injection H as <-; auto].
  destruct (mud_problem domain lam q sd t num_obs w) as [mud_it|e] eqn:Em;
    cbn [mud_call bind].
  - destruct (estimate mud_it) as [[res p]|e] eqn:Ee; cbn [mud_call bind];
      [discriminate|].
    intros H. injection H as <-. right. exists e, q, t. eauto 10.
  - intros H. injection H as <-. right. exists e, q, t. auto 10.
Qed.

(** X8.  The cell raises a numpy exception exactly when the data cannot be
    cut into equal batches, whatever the package does: [ZeroDivisionError]
    for [num_splits = 0], [ValueError] when [num_splits] is negative or does
    not divide the number of times, of columns or of observed values.  The
    reads [qoi_it[i]] and [qoi_true_it[i]] of the loop never raise. *)
Theorem sequential_cell_numpy_exceptions (num_splits : Z) (ts : list Q)
    (domain : Domain) (lam : Lam) (qoi : ndarray2) (sd : Q) (qoi_true : list Q)
    (N : Z) (e : pyexc) :
  cell num_splits ts domain lam qoi sd qoi_true N = Raise (inl e) <->
  (e = ZeroDivisionError /\ num_splits = 0%Z) \/
  (e = ValueError /\ num_splits <> 0%Z /\
   ~ ((0 < num_splits)%Z /\
      (Z.of_nat (length ts) mod num_splits = 0)%Z /\
      (Z.of_nat (shape1 qoi) mod num_splits = 0)%Z /\
      (Z.of_nat (length qoi_true) mod num_splits = 0)%Z)).
Proof.
  split.
  - unfold sequential_cell. intros H.
    destruct (split ts num_splits) as [ts_it|e1] eqn:E1; cbn [np_call bind] in H.
    2: { injection H as <-. apply split_raises, split_sizes_exception in E1.
         destruct E1 as [E1|(He & Hn & Hc)]; [left; exact E1 | right].
         split; [exact He|]. split; [exact Hn|]. tauto. }
    destruct (split_axis1 qoi num_splits) as [qoi_it|e2] eqn:E2; cbn [np_call bind] in H.
    2: { injection H as <-. apply split_axis1_raises, split_sizes_exception in E2.
         destruct E2 as [E2|(He & Hn & Hc)]; [left; exact E2 | right].
         split; [exact He|]. split; [exact Hn|]. tauto. }
    destruct (split qoi_true num_splits) as [qoi_true_it|e3] eqn:E3; cbn [np_call bind] in H.
    2: { injection H as <-. apply split_raises, split_sizes_exception in E3.
         destruct E3 as [E3|(He & Hn & Hc)]; [left; exact E3 | right].
         split; [exact He|]. split; [exact Hn|]. tauto. }
    exfalso.
    apply for_range_raises in H as (pre & i & post & [[w solves] printed] & Hidx & _ & Hb).
    apply seq_prefix in Hidx as (_ & -> & Hi).
    apply loop_body_raises in Hb as [[_ Hnone]|(e' & q & t & He' & _)];
      [|discriminate He'].
    apply split_axis1_ok in E2 as (szq & _ & _ & ->).
    apply split_ok in E3 as (szt & _ & _ & ->).
    destruct Hnone as [Hnone|Hnone]; apply nth_error_None in Hnone;
      rewrite length_map, length_seq in Hnone; lia.
  - intros [[-> ->]|(-> & Hn & Hc)].
    + reflexivity.
    + apply sequential_cell_split_errors; assumption.
Qed.

(** X9.  When the cell fails with an exception of the package, it is the
    exception of the first batch whose constructor or [estimate()] raised:
    the batches before it were all solved, the weights it was given are
    those the loop held after them, and no later batch was touched. *)
Theorem sequential_cell_stops_at_first_failure (num_splits : Z) (ts : list Q)
    (domain : Domain) (lam : Lam) (qoi : ndarray2) (sd : Q) (qoi_true : list Q)
    (N : Z) (e : E) :
  cell num_splits ts domain lam qoi sd qoi_true N = Raise (inr e) ->
  exists qoi_it qoi_true_it k w solves printed q t,
    split_axis1 qoi num_splits = Ok qoi_it /\
    split qoi_true num_splits = Ok qoi_true_it /\
    (k < Z.to_nat num_splits)%nat /\
    for_range (body domain lam qoi_it sd qoi_true_it (Z.quot N num_splits))
              (None, [], []) (seq 0 k) = Ok (w, solves, printed) /\
    length solves = k /\
    nth_error qoi_it k = Some q /\ nth_error qoi_true_it k = Some t /\
    (mud_problem domain lam q sd t (Z.quot N num_splits) w = Raise e \/
     exists mud_it,
       mud_problem domain lam q sd t (Z.quot N num_splits) w = Ok mud_it /\
       estimate mud_it = Raise e).
Proof.
  unfold sequential_cell. intros H.
  destruct (split ts num_splits) as [ts_it|e1]; cbn [np_call bind] in H;
    [|discriminate].
  destruct (split_axis1 qoi num_splits) as [qoi_it|e2]; cbn [np_call bind] in H;
    [|discriminate].
  destruct (split qoi_true num_splits) as [qoi_true_it|e3]; cbn [np_call bind] in H;
    [|discriminate].
  apply for_range_raises in H as (pre & i & post & [[w solves] printed] & Hidx & Hpre & Hb).
  apply seq_prefix in Hidx as (Hp & -> & Hi).
  apply loop_body_raises in Hb as [[He _]|(e' & q & t & He' & Hq & Ht & Hcause)];
    [discriminate He|].
  injection He' as <-.
  exists qoi_it, qoi_true_it, (length pre), w, solves, printed, q, t.
  rewrite <- Hp.
  split; [reflexivity|]. split; [reflexivity|]. split; [exact Hi|].
  split; [exact Hpre|].
  split; [|split; [exact Hq | split; [exact Ht | exact Hcause]]].
  apply SequentialFacts.for_range_feeds_weights in Hpre as (Hlen & _);
    [|reflexivity|reflexivity].
  exact Hlen.
Qed.

(** X10.  When the cell runs through, [num_splits] is positive, one estimate
    was printed per batch, and the variable [weights] ends as the [_r] of the
    last solved problem. *)
Theorem sequential_cell_final_weights (num_splits : Z) (ts : list Q)
    (domain : Domain) (lam : Lam) (qoi : ndarray2) (sd : Q) (qoi_true : list Q)
    (N : Z) (wf : option W) (mud_solves : list Problem) (printed : list Est) :
  cell num_splits ts domain lam qoi sd qoi_true N = Ok (wf, mud_solves, printed) ->
  (0 < num_splits)%Z /\
  length printed = Z.to_nat num_splits /\
  exists p,
    nth_error mud_solves (Z.to_nat num_splits - 1) = Some p /\
    wf = _r p.
Proof.
  intros H.
  apply SequentialFacts.sequential_cell_ok in H as (qoi_it & qoi_true_it & Hq & _ & H).
  apply split_axis1_ok in Hq as (sz & Hn & _).
  apply SequentialFacts.for_range_feeds_weights in H
    as (Hlen & Hout & _ & _ & Hwf & _); [|reflexivity|reflexivity].
  rewrite length_seq in Hlen. cbn [length Nat.add] in Hlen.
  split; [exact Hn|]. split; [lia|].
  destruct (nth_error mud_solves (Z.to_nat num_splits - 1)) as [p|] eqn:Ep.
  - exists p. split; [reflexivity|]. rewrite Hwf, Hlen.
    replace (Z.to_nat num_splits) with (S (Z.to_nat num_splits - 1)) at 1 by lia.
    cbn [weights_fed]. now rewrite Ep.
  - apply nth_error_None in Ep. lia.
Qed.

End Cell.

Lemma sequential_cell_batches_partition_witness :
  exists st qoi_true_it,
    (sequential_estimator Mud.hat_fit Mud.bump_pdf Mud.no_discrepancy 0 2 [0; 1]
      [(0, 1)] [[1 # 4]; [1 # 2]; [3 # 4]] (mk2d 2 [[1; 2]; [2; 3]; [3; 4]])
      (1 # 10) [2; 3] 2 = Ok st /\
     well_shaped (mk2d 2 [[1; 2]; [2; 3]; [3; 4]])) /\
    split [2; 3] 2 = Ok qoi_true_it /\ concat qoi_true_it = [2; 3].
Proof.
  eexists _, _.
  assert (Hrun : sequential_estimator Mud.hat_fit Mud.bump_pdf Mud.no_discrepancy 0 2 [0; 1]
      [(0, 1)] [[1 # 4]; [1 # 2]; [3 # 4]] (mk2d 2 [[1; 2]; [2; 3]; [3; 4]])
      (1 # 10) [2; 3] 2 = Ok _) by (vm_compute; reflexivity).
  assert (Hwf : well_shaped (mk2d 2 [[1; 2]; [2; 3]; [3; 4]]))
    by (repeat constructor).
  split; [split; [exact Hrun | exact Hwf] |].
  unfold sequential_estimator in Hrun.
  destruct (sequential_cell_batches_partition _ _ _ _ _ _ _ _ _ _ _ _ _ _ _ _ _ _
              Hrun Hwf)
    as (qoi_it & qoi_true_it & _ & Ht & _ & _ & Hcat & _).
  vm_compute in Ht. injection Ht as <-. split; reflexivity.
Defined.

Lemma sequential_cell_stops_at_first_failure_witness :
  sequential_estimator Mud.hat_fit Mud.bump_pdf Mud.no_discrepancy 0 2 [0; 1]
      [(0, 1)] [[1 # 2]] (mk2d 2 [[1; 2]]) (1 # 10) [2; 3] 2 = Raise (inr Mud.InsufficientSamplesError) /\
  exists k mud_it,
    (k < 2)%nat /\
    Mud.estimate Mud.hat_fit Mud.bump_pdf Mud.no_discrepancy 0 mud_it
      = Raise Mud.InsufficientSamplesError.
Proof.
  assert (Hrun : sequential_estimator Mud.hat_fit Mud.bump_pdf Mud.no_discrepancy 0 2 [0; 1]
      [(0, 1)] [[1 # 2]] (mk2d 2 [[1; 2]]) (1 # 10) [2; 3] 2 = Raise (inr Mud.InsufficientSamplesError))
    by (vm_compute; reflexivity).
  split; [exact Hrun|].
  unfold sequential_estimator in Hrun.
  destruct (sequential_cell_stops_at_first_failure _ _ _ _ _ _ _ _ _ _ _ _ _ _ _ _ _ _
              Hrun)
    as (qoi_it & qoi_true_it & k & w & solves & printed & q & t
        & _ & _ & Hk & _ & _ & _ & _ & [Hm|(mud_it & _ & He)]).
  - exfalso. unfold Mud.mud_problem in Hm. cbn [length Nat.eqb] in Hm.
    destruct (negb _); [discriminate|]. destruct (negb _); [discriminate|].
    destruct w as [v|]; [destruct (Nat.eqb _ _)|]; discriminate.
  - exists k, mud_it. split; [exact Hk | exact He].
Defined.

Lemma sequential_cell_final_weights_witness :
  exists wf mud_solves printed,
    sequential_estimator Mud.hat_fit Mud.bump_pdf Mud.no_discrepancy 0 2 [0; 1]
      [(0, 1)] [[1 # 4]; [1 # 2]; [3 # 4]] (mk2d 2 [[1; 2]; [2; 3]; [3; 4]])
      (1 # 10) [2; 3] 2 = Ok (wf, mud_solves, printed) /\
    length printed = 2%nat /\
    exists p, nth_error mud_solves 1 = Some p /\ wf = Mud._r p.
Proof.
  eexists _, _, _.
  assert (Hrun : sequential_estimator Mud.hat_fit Mud.bump_pdf Mud.no_discrepancy 0 2 [0; 1]
      [(0, 1)] [[1 # 4]; [1 # 2]; [3 # 4]] (mk2d 2 [[1; 2]; [2; 3]; [3; 4]])
      (1 # 10) [2; 3] 2 = Ok (_, _, _)) by (vm_compute; reflexivity).
  split; [exact Hrun|].
  unfold sequential_estimator in Hrun.
  exact (proj2 (sequential_cell_final_weights _ _ _ _ _ _ _ _ _ _ _ _ _ _ _ _ _ _ _ _
                  Hrun)).
Defined.

(** *** From the generator to the batches *)

(** X11.  Cutting the output of [exp_decay_one] the way the cell does: when
    the times can be cut, the prediction matrix and the observed vector can
    be cut too, batch [k] of the observed vector and of every prediction row
    is the model output at batch [k] of the times, and when the generator
    delivered the [N] times asked for, [int(N / num_splits)] is the number of
    columns of each batch. *)
Theorem batches_are_model_outputs (np_exp : Q -> Q)
    (np_arange : Q -> Q -> Q -> result pyexc (list Q)) (rng : nat -> Q) (u_0 : Q)
    (time_range : list Q) (domain : domain_arg) (num_samples : Z)
    (lambda_true : Q) (N : Z) (t_start sampling_freq : Q) (num_splits : Z)
    (times lam : list Q) (predicted : ndarray2) (true : list Q)
    (ts_it : list (list Q)) :
  exp_decay_one np_exp np_arange rng u_0 time_range domain num_samples lambda_true N
                t_start sampling_freq = Ok (times, lam, predicted, true) ->
  split times num_splits = Ok ts_it ->
  exists qoi_it qoi_true_it,
    split_axis1 predicted num_splits = Ok qoi_it /\
    split true num_splits = Ok qoi_true_it /\
    forall k tk, nth_error ts_it k = Some tk ->
      nth_error qoi_true_it k = Some (trajectory np_exp u_0 lambda_true tk) /\
      (exists q,
         nth_error qoi_it k = Some q /\
         shape1 q = length tk /\
         rows q = map (fun l => trajectory np_exp u_0 l tk) lam) /\
      (Z.of_nat (length times) = N -> Z.quot N num_splits = Z.of_nat (length tk)).
Proof.
  intros H Hts.
  apply exp_decay_one_ok in H
    as (t_end & grid & mn & mx & _ & _ & _ & _ & _ & _ & _ & -> & ->).
  unfold split in Hts. apply bind_ok in Hts as ([sz cnt] & Hs & Hts).
  injection Hts as <-. cbn [fst snd].
  pose proof (split_sizes_ok _ _ _ _ Hs) as (Hn & -> & Hlen & HlenZ).
  eexists _, _.
  split; [unfold split_axis1; rewrite u_t_lambda_shape1, Hs; reflexivity|].
  split; [unfold split, trajectory; rewrite length_map, Hs; reflexivity|].
  cbn [fst snd bind]. intros k tk Hk.
  rewrite nth_error_map, nth_error_seq in Hk |- *.
  rewrite nth_error_map, nth_error_seq.
  destruct (k <? Z.to_nat num_splits)%nat eqn:Ek; [|discriminate].
  apply Nat.ltb_lt in Ek. cbn [option_map Nat.add] in Hk |- *.
  injection Hk as <-.
  split; [|split].
  - unfold trajectory. now rewrite section_of_map.
  - eexists. split; [reflexivity|]. cbn [shape1 rows]. split.
    + symmetry. apply section_of_length with (cnt := Z.to_nat num_splits); assumption.
    + rewrite u_t_lambda_rows, map_map. apply map_ext. intros l.
      unfold trajectory. now rewrite section_of_map.
  - intros HN.
    rewrite (section_of_length sz _ k (Z.to_nat num_splits) Hlen Ek).
    rewrite <- HN, <- HlenZ. apply Z.quot_mul. lia.
Qed.

Lemma batches_are_model_outputs_witness :
  exists times lam predicted true ts_it qoi_true_it,
    (exp_decay_one exp_series exact_grid cycle_rng (3 # 4) [0; 3] (Dom2 [[0; 1]]) 2 (1 # 2)
                   4 0 2 = Ok (times, lam, predicted, true) /\
     split times 2 = Ok ts_it) /\
    split true 2 = Ok qoi_true_it /\
    forall k tk, nth_error ts_it k = Some tk ->
      nth_error qoi_true_it k = Some (trajectory exp_series (3 # 4) (1 # 2) tk).
Proof.
  eexists _, _, _, _, _, _.
  assert (Hrun :
    exp_decay_one exp_series exact_grid cycle_rng (3 # 4) [0; 3] (Dom2 [[0; 1]]) 2 (1 # 2)
                  4 0 2 = Ok (_, _, _, _)) by (vm_compute; reflexivity).
  assert (Hts : split [0 # 2; 1 # 2; 2 # 2; 3 # 2] 2 = Ok _) by reflexivity.
  split; [split; [exact Hrun | exact Hts] |].
  destruct (batches_are_model_outputs exp_series exact_grid cycle_rng (3 # 4) [0; 3]
              (Dom2 [[0; 1]]) 2 (1 # 2) 4 0 2 2 _ _ _ _ _ Hrun Hts)
    as (qoi_it & qoi_true_it & _ & Ht & Hall).
  vm_compute in Ht. injection Ht as <-.
  split; [vm_compute; reflexivity|].
  intros k tk Hk. exact (proj1 (Hall k tk Hk)).
Defined.

End BatchFacts.
